(** * notify_slack: the SNS-to-Slack notification lambda

    A shallow embedding of [functions/notify_slack.py] and the properties
    of its classification and rendering logic.

    Python values are the values [json.loads] can produce.  A [dict] is an
    association list in insertion order (Python dictionaries iterate in
    that order, and the field renderer depends on it).  A [str] is a Rocq
    [string], one [ascii] per character, read as the code points below
    256.  A [float] is an IEEE binary64 number, as [spec_float].
    Exceptions are the left summand of an error monad. *)

From Stdlib Require Import ZArith List String Ascii Bool Lia.
From Stdlib Require Import DecimalString.
From Stdlib Require Import Floats.SpecFloat Floats.PrimFloat Floats.FloatOps.
From ExtLib Require Import Structures.Monad Structures.MonadExc.
From ExtLib Require Import Data.Monads.EitherMonad.
Import ListNotations.
Import MonadNotation.
Local Open Scope string_scope.
Local Open Scope monad_scope.

(** ** Python values and exceptions *)

#[warnings="-register-all"]
Inductive pyval : Type :=
| PNone
| PBool (b : bool)
| PInt (z : Z)
| PFloat (f : spec_float)
| PStr (s : string)
| PList (l : list pyval)
| PDict (d : list (string * pyval)).

Inductive pyerr : Type :=
| KeyError (key : pyval)
| TypeError
| AttributeError
| JSONDecodeError.

(** A computation that returns an [A] or raises. *)
Abbreviation py := (sum pyerr).

Definition dict : Type := list (string * pyval).

(** ** Dictionaries in insertion order *)

Module Dict.

Fixpoint get (k : string) (d : dict) : option pyval :=
  match d with
  | [] => None
  | (k', v) :: d' => if String.eqb k k' then Some v else get k d'
  end.

Definition mem (k : string) (d : dict) : bool :=
  match get k d with Some _ => true | None => false end.

(** [d[k] = v]: an existing key keeps its position, a new one goes last. *)
Fixpoint set (k : string) (v : pyval) (d : dict) : dict :=
  match d with
  | [] => [(k, v)]
  | (k', v') :: d' =>
      if String.eqb k k' then (k', v) :: d' else (k', v') :: set k v d'
  end.

(** [{**a, **b}]: the items of [b] are stored into a copy of [a], in order. *)
Definition merge (a b : dict) : dict :=
  fold_left (fun acc kv => set (fst kv) (snd kv) acc) b a.

Definition keys (d : dict) : list string := map fst d.

End Dict.

(** ** Built-in operations of the Python runtime *)

(** [sub in s] on two strings. *)
Definition str_contains (sub s : string) : bool :=
  match String.index 0 sub s with Some _ => true | None => false end.

(** [s.startswith(p)]. *)
Definition startswith (s p : string) : bool := String.prefix p s.

(** [v == s] for a string [s]. *)
Definition py_eq_str (v : pyval) (s : string) : bool :=
  match v with
  | PStr s' => String.eqb s' s
  | _ => false
  end.

(** [k in v] for a string [k]: key membership on a dict, substring test on
    a str, element test on a list; any other operand is not iterable. *)
Definition py_in (k : string) (v : pyval) : py bool :=
  match v with
  | PDict d => ret (Dict.mem k d)
  | PStr s => ret (str_contains k s)
  | PList l => ret (existsb (fun x => py_eq_str x k) l)
  | _ => raise TypeError
  end.

(** [v[k]] for a string [k]. *)
Definition py_getitem (v : pyval) (k : string) : py pyval :=
  match v with
  | PDict d =>
      match Dict.get k d with
      | Some x => ret x
      | None => raise (KeyError (PStr k))
      end
  | _ => raise TypeError
  end.

(** [table[v]] for a dict literal with string keys and values: a list or a
    dict is unhashable, any other absent key is a [KeyError]. *)
Definition py_lookup (table : list (string * string)) (v : pyval) : py pyval :=
  match v with
  | PList _ | PDict _ => raise TypeError
  | PStr s =>
      match find (fun kv => String.eqb s (fst kv)) table with
      | Some kv => ret (PStr (snd kv))
      | None => raise (KeyError v)
      end
  | _ => raise (KeyError v)
  end.

(** [a + v] for a string [a]. *)
Definition py_add_str (a : string) (v : pyval) : py string :=
  match v with
  | PStr b => ret (a ++ b)
  | _ => raise TypeError
  end.

(** [region.startswith(p)]. *)
Definition py_startswith (v : pyval) (p : string) : py bool :=
  match v with
  | PStr s => ret (startswith s p)
  | _ => raise AttributeError
  end.

(** Exact comparison [z < f] of an int with a float. *)
Definition Z_ltb_float (z : Z) (f : spec_float) : bool :=
  match f with
  | S754_zero _ => (z <? 0)%Z
  | S754_infinity s => negb s
  | S754_nan => false
  | S754_finite s m e =>
      let sm := if s then Z.neg m else Z.pos m in
      if (0 <=? e)%Z then (z <? sm * 2 ^ e)%Z
      else (z * 2 ^ (- e) <? sm)%Z
  end.

(** [v < c] for a float constant [c]. *)
Definition py_lt_float (v : pyval) (c : spec_float) : py bool :=
  match v with
  | PInt z => ret (Z_ltb_float z c)
  | PBool b => ret (Z_ltb_float (if b then 1 else 0)%Z c)
  | PFloat f => ret (SFltb f c)
  | _ => raise TypeError
  end.

(** Truth value of an object. *)
Definition py_truthy (v : pyval) : bool :=
  match v with
  | PNone => false
  | PBool b => b
  | PInt z => negb (z =? 0)%Z
  | PFloat (S754_zero _) => false
  | PFloat _ => true
  | PStr s => negb (String.eqb s EmptyString)
  | PList l => match l with [] => false | _ => true end
  | PDict d => match d with [] => false | _ => true end
  end.

(** The floats 4.0 and 7.0 in binary64. *)
Definition f4_0 : spec_float := S754_finite false 4503599627370496 (-50).
Definition f7_0 : spec_float := S754_finite false 7881299347898368 (-50).

(** ** Text forms of values: [str], [repr], [json.dumps], [urllib.parse.quote] *)

Definition dquote : ascii := ascii_of_nat 34.
Definition backslash : ascii := ascii_of_nat 92.

Definition hex_digit (upper : bool) (n : nat) : ascii :=
  let letters := if upper then "ABCDEF" else "abcdef" in
  match String.get n ("0123456789" ++ letters) with
  | Some c => c
  | None => "0"%char
  end.

(** Two hexadecimal digits of a byte. *)
Definition hex2 (upper : bool) (n : nat) : string :=
  String (hex_digit upper (n / 16)) (String (hex_digit upper (n mod 16)) EmptyString).

Definition str_of_Z (z : Z) : string := NilZero.string_of_int (Z.to_int z).

Definition join (sep : string) (parts : list string) : string :=
  String.concat sep parts.

Definition in_range (lo hi n : nat) : bool := (lo <=? n)%nat && (n <=? hi)%nat.

Section Text.

(** [float.__repr__], the shortest decimal text that reads back as the
    same float, belongs to the Python runtime and is taken as given. *)
Variable float_repr : spec_float -> string.

(** One character of the [repr] of a str quoted with [q]. *)
Definition repr_char (q c : ascii) : string :=
  let n := nat_of_ascii c in
  if Ascii.eqb c q then String backslash (String c EmptyString)
  else if Ascii.eqb c backslash then "\\"
  else if (n =? 9)%nat then "\t"
  else if (n =? 10)%nat then "\n"
  else if (n =? 13)%nat then "\r"
  else if (n <? 32)%nat || (n =? 127)%nat || in_range 128 160 n || (n =? 173)%nat
       then "\x" ++ hex2 false n
  else String c EmptyString.

Definition has_char (c : ascii) (s : string) : bool :=
  existsb (Ascii.eqb c) (list_ascii_of_string s).

(** [repr(s)]: single quotes, unless [s] has a single quote and no
    double quote. *)
Definition str_repr (s : string) : string :=
  let q := if has_char "'"%char s && negb (has_char dquote s)
           then dquote else "'"%char in
  String q (String.concat EmptyString
              (map (repr_char q) (list_ascii_of_string s)))
    ++ String q EmptyString.

Fixpoint py_repr (v : pyval) : string :=
  match v with
  | PNone => "None"
  | PBool b => if b then "True" else "False"
  | PInt z => str_of_Z z
  | PFloat f => float_repr f
  | PStr s => str_repr s
  | PList l => "[" ++ join ", " (map py_repr l) ++ "]"
  | PDict d =>
      "{" ++ join ", "
               (map (fun kv : string * pyval =>
                       let (k, x) := kv in
                       (str_repr k ++ ": " ++ py_repr x)%string) d) ++ "}"
  end.

(** [str(v)], also what [format] puts in place of a bare [{}]. *)
Definition py_str (v : pyval) : string :=
  match v with
  | PStr s => s
  | _ => py_repr v
  end.

(** One character of a JSON string with [ensure_ascii]. *)
Definition json_char (c : ascii) : string :=
  let n := nat_of_ascii c in
  if Ascii.eqb c dquote then String backslash (String dquote EmptyString)
  else if Ascii.eqb c backslash then "\\"
  else if (n =? 8)%nat then "\b"
  else if (n =? 12)%nat then "\f"
  else if (n =? 10)%nat then "\n"
  else if (n =? 13)%nat then "\r"
  else if (n =? 9)%nat then "\t"
  else if in_range 32 126 n then String c EmptyString
  else "\u00" ++ hex2 false n.

Definition json_str (s : string) : string :=
  String dquote
    (String.concat EmptyString (map json_char (list_ascii_of_string s)))
    ++ String dquote EmptyString.

Definition json_float (f : spec_float) : string :=
  match f with
  | S754_nan => "NaN"
  | S754_infinity false => "Infinity"
  | S754_infinity true => "-Infinity"
  | _ => float_repr f
  end.

(** [json.dumps(v)] with its default separators. *)
Fixpoint json_dumps (v : pyval) : string :=
  match v with
  | PNone => "null"
  | PBool b => if b then "true" else "false"
  | PInt z => str_of_Z z
  | PFloat f => json_float f
  | PStr s => json_str s
  | PList l => "[" ++ join ", " (map json_dumps l) ++ "]"
  | PDict d =>
      "{" ++ join ", "
               (map (fun kv : string * pyval =>
                       let (k, x) := kv in
                       (json_str k ++ ": " ++ json_dumps x)%string) d) ++ "}"
  end.

End Text.

(** Characters [urllib.parse.quote] leaves alone: letters, digits,
    [_.-~] and the default safe character [/]. *)
Definition quote_safe (c : ascii) : bool :=
  let n := nat_of_ascii c in
  in_range 65 90 n || in_range 97 122 n || in_range 48 57 n
  || has_char c "_.-~/".

(** The UTF-8 bytes of a code point below 256. *)
Definition utf8 (c : ascii) : list nat :=
  let n := nat_of_ascii c in
  if (n <? 128)%nat then [n] else [192 + n / 64; 128 + n mod 64]%nat.

Definition quote_char (c : ascii) : string :=
  if quote_safe c then String c EmptyString
  else String.concat EmptyString (map (fun b => "%" ++ hex2 true b) (utf8 c)).

(** [urllib.parse.quote(s)]. *)
Definition quote (s : string) : string :=
  String.concat EmptyString (map quote_char (list_ascii_of_string s)).

(** [urllib.parse.quote(v)]: anything but a str is rejected. *)
Definition py_quote (v : pyval) : py string :=
  match v with
  | PStr s => ret (quote s)
  | _ => raise TypeError
  end.

(** ** The notification functions *)

(** The process environment the lambda is configured with. *)
Record environ : Type := {
  SLACK_WEBHOOK_URL : string;
  SLACK_CHANNEL : string;
  SLACK_USERNAME : string;
  SLACK_EMOJI : string;
  ENVIRONMENT_NAME : string
}.

(** A field of an attachment: [{"title": .., "value": .., "short": ..}]. *)
Definition field (title : string) (value : pyval) (short : bool) : pyval :=
  PDict [("title", PStr title); ("value", value); ("short", PBool short)].

Definition alarm_states : list (string * string) :=
  [("OK", "good"); ("INSUFFICIENT_DATA", "warning"); ("ALARM", "danger")].

Definition finding_states : list (string * string) :=
  [("Low", "#777777"); ("Medium", "warning"); ("High", "danger")].

Section Notify.

Variable float_repr : spec_float -> string.

(** [json.loads] of the Python runtime: the decoded value, or
    [JSONDecodeError]. *)
Variable json_loads : string -> py pyval.

Definition cloudwatch_notification (message region : pyval) : py pyval :=
  gov <- py_startswith region "us-gov-" ;;
  let cloudwatch_url :=
    if (gov : bool)
    then "https://console.amazonaws-us-gov.com/cloudwatch/home?region="
    else "https://console.aws.amazon.com/cloudwatch/home?region=" in
  new_state <- py_getitem message "NewStateValue" ;;
  color <- py_lookup alarm_states new_state ;;
  name <- py_getitem message "AlarmName" ;;
  let fallback := "Alarm " ++ py_str float_repr name ++ " triggered" in
  alarm_name <- py_getitem message "AlarmName" ;;
  description <- py_getitem message "AlarmDescription" ;;
  reason <- py_getitem message "NewStateReason" ;;
  old_state <- py_getitem message "OldStateValue" ;;
  current_state <- py_getitem message "NewStateValue" ;;
  url <- py_add_str cloudwatch_url region ;;
  quoted <- (n <- py_getitem message "AlarmName" ;; py_quote n) ;;
  ret (PDict
    [("color", color);
     ("fallback", PStr fallback);
     ("fields", PList
        [field "Alarm Name" alarm_name true;
         field "Alarm Description" description false;
         field "Alarm reason" reason false;
         field "Old State" old_state true;
         field "Current State" current_state true;
         field "Link to Alarm"
           (PStr (url ++ "#alarm:alarmFilter=ANY;name=" ++ quoted)) false])]).

(** The severity label of a score (the [if]/[elif]/[else] of
    [guardduty_finding]). *)
Definition severity_of (score : pyval) : py string :=
  low <- py_lt_float score f4_0 ;;
  if (low : bool) then ret "Low"
  else
    medium <- py_lt_float score f7_0 ;;
    if (medium : bool) then ret "Medium" else ret "High".

Definition guardduty_finding (message region : pyval) : py pyval :=
  gov <- py_startswith region "us-gov-" ;;
  let guardduty_url :=
    if (gov : bool)
    then "https://console.amazonaws-us-gov.com/guardduty/home?region="
    else "https://console.aws.amazon.com/guardduty/home?region=" in
  detail <- py_getitem message "detail" ;;
  score <- py_getitem detail "severity" ;;
  severity <- severity_of score ;;
  color <- py_lookup finding_states (PStr severity) ;;
  title <- py_getitem detail "title" ;;
  let fallback := "GuardDuty Finding: " ++ py_str float_repr title in
  description <- py_getitem detail "description" ;;
  type <- py_getitem detail "type" ;;
  first_seen <- (s <- py_getitem detail "service" ;; py_getitem s "eventFirstSeen") ;;
  last_seen <- (s <- py_getitem detail "service" ;; py_getitem s "eventLastSeen") ;;
  count <- (s <- py_getitem detail "service" ;; py_getitem s "count") ;;
  url <- py_add_str guardduty_url region ;;
  link <- (id <- py_getitem detail "id" ;;
           py_add_str (url ++ "#/findings?search=id%3D") id) ;;
  ret (PDict
    [("color", color);
     ("fallback", PStr fallback);
     ("fields", PList
        [field "Description" description false;
         field "Finding type" type false;
         field "First Seen" first_seen true;
         field "Last Seen" last_seen true;
         field "Severity" (PStr severity) true;
         field "Count" count true;
         field "Link to Finding" (PStr link) false])]).

(** The text a value of a generic message is shown as. *)
Definition render_value (v : pyval) : string :=
  match v with
  | PDict _ | PList _ => "`" ++ json_dumps float_repr v ++ "`"
  | _ => py_str float_repr v
  end.

(** The field of one item of [message.items()]. *)
Definition render_field (kv : string * pyval) : pyval :=
  let value := render_value (snd kv) in
  field (fst kv) (PStr value) (String.length value <? 25)%nat.

(** The body of the loop over the items: one field is appended. *)
Definition append_field (fields : list pyval) (kv : string * pyval)
  : list pyval :=
  fields ++ [render_field kv].

Definition default_notification (subject message : pyval) : pyval :=
  let title := if py_truthy subject then subject else PStr "Message" in
  let fields :=
    match message with
    | PDict d => fold_left append_field d []
    | _ => [PDict [("value", message); ("short", PBool false)]]
    end in
  PDict [("fallback", PStr "A new message");
         ("title", title);
         ("mrkdwn_in", PList [PStr "value"]);
         ("fields", PList fields)].

(** [payload['attachments'].append(notification)]. *)
Definition append_attachment (payload : dict) (notification : pyval) : dict :=
  match Dict.get "attachments" payload with
  | Some (PList l) => Dict.set "attachments" (PList (l ++ [notification])) payload
  | _ => payload
  end.

(** [{**payload, **message}]: [message] has to be a mapping. *)
Definition py_merge (payload : dict) (message : pyval) : py dict :=
  match message with
  | PDict m => ret (Dict.merge payload m)
  | _ => raise TypeError
  end.

(** The message after the [json.loads] attempt: a str that does not
    decode stays as it is. *)
Definition decode (message : pyval) : py pyval :=
  match message with
  | PStr s =>
      catch (json_loads s)
            (fun err => match err with
                        | JSONDecodeError => ret message
                        | _ => raise err
                        end)
  | _ => ret message
  end.

(** The payload [notify_slack] starts from. *)
Definition base_payload (env : environ) : dict :=
  [("channel", PStr (SLACK_CHANNEL env));
   ("username", PStr (SLACK_USERNAME env));
   ("icon_emoji", PStr (SLACK_EMOJI env));
   ("attachments", PList [])].

Definition prefix_of (env : environ) : string :=
  if negb (String.eqb (ENVIRONMENT_NAME env) EmptyString)
  then "[" ++ ENVIRONMENT_NAME env ++ "] " else EmptyString.

(** Lines 111 to 140 of [notify_slack]: the payload that is posted. *)
Definition notify_slack_payload (env : environ)
           (subject message region : pyval) : py dict :=
  let payload := base_payload env in
  let prefix := prefix_of env in
  message <- decode message ;;
  is_alarm <- py_in "AlarmName" message ;;
  if (is_alarm : bool) then
    notification <- cloudwatch_notification message region ;;
    text <- (name <- py_getitem message "AlarmName" ;;
             py_add_str (prefix ++ "AWS CloudWatch notification - ") name) ;;
    ret (append_attachment (Dict.set "text" (PStr text) payload) notification)
  else
    is_finding <-
      (has <- py_in "detail-type" message ;;
       if (has : bool) then
         ty <- py_getitem message "detail-type" ;;
         ret (py_eq_str ty "GuardDuty Finding")
       else ret false) ;;
    if (is_finding : bool) then
      notification <-
        (r <- py_getitem message "region" ;; guardduty_finding message r) ;;
      text <- (detail <- py_getitem message "detail" ;;
               title <- py_getitem detail "title" ;;
               py_add_str (prefix ++ "Amazon GuardDuty Finding - ") title) ;;
      ret (append_attachment (Dict.set "text" (PStr text) payload) notification)
    else
      is_preformatted <-
        (has <- py_in "attachments" message ;;
         if (has : bool) then ret true else py_in "text" message) ;;
      if (is_preformatted : bool) then py_merge payload message
      else
        ret (append_attachment
               (Dict.set "text" (PStr (prefix ++ "AWS notification")) payload)
               (default_notification subject message)).

End Notify.

(** ** Shapes

    The four branches of [notify_slack], as the shape each one handles. *)

Inductive shape : Type :=
| AlarmShape
| FindingShape
| PreformattedShape
| GenericShape.

(** The tests of the [if]/[elif] chain of [notify_slack], in its order. *)
Definition classify (message : pyval) : py shape :=
  is_alarm <- py_in "AlarmName" message ;;
  if (is_alarm : bool) then ret AlarmShape
  else
    is_finding <-
      (has <- py_in "detail-type" message ;;
       if (has : bool) then
         ty <- py_getitem message "detail-type" ;;
         ret (py_eq_str ty "GuardDuty Finding")
       else ret false) ;;
    if (is_finding : bool) then ret FindingShape
    else
      is_preformatted <-
        (has <- py_in "attachments" message ;;
         if (has : bool) then ret true else py_in "text" message) ;;
      if (is_preformatted : bool) then ret PreformattedShape
      else ret GenericShape.

Section Branches.

Variable float_repr : spec_float -> string.
Variable env : environ.

(** What each branch of [notify_slack] makes of the decoded message. *)
Definition branch (s : shape) (subject message region : pyval) : py dict :=
  let payload := base_payload env in
  let prefix := prefix_of env in
  match s with
  | AlarmShape =>
      notification <- cloudwatch_notification float_repr message region ;;
      text <- (name <- py_getitem message "AlarmName" ;;
               py_add_str (prefix ++ "AWS CloudWatch notification - ") name) ;;
      ret (append_attachment (Dict.set "text" (PStr text) payload) notification)
  | FindingShape =>
      notification <-
        (r <- py_getitem message "region" ;;
         guardduty_finding float_repr message r) ;;
      text <- (detail <- py_getitem message "detail" ;;
               title <- py_getitem detail "title" ;;
               py_add_str (prefix ++ "Amazon GuardDuty Finding - ") title) ;;
      ret (append_attachment (Dict.set "text" (PStr text) payload) notification)
  | PreformattedShape => py_merge payload message
  | GenericShape =>
      ret (append_attachment
             (Dict.set "text" (PStr (prefix ++ "AWS notification")) payload)
             (default_notification float_repr subject message))
  end.

End Branches.

(** The mapping has a [detail-type] that is [GuardDuty Finding]. *)
Definition is_guardduty (m : dict) : bool :=
  match Dict.get "detail-type" m with
  | Some ty => py_eq_str ty "GuardDuty Finding"
  | None => false
  end.

(** The shape of a mapping by the keys it has: [AlarmName], then a
    GuardDuty [detail-type], then [attachments] or [text]. *)
Definition shape_of_keys (m : dict) : shape :=
  if Dict.mem "AlarmName" m then AlarmShape
  else if is_guardduty m then FindingShape
  else if Dict.mem "attachments" m || Dict.mem "text" m then PreformattedShape
  else GenericShape.

(** Values for running the functions on concrete inputs. *)
Module Sample.

Definition env : environ :=
  {| SLACK_WEBHOOK_URL := "https://hooks.slack.com/services/T/B/X";
     SLACK_CHANNEL := "#ops";
     SLACK_USERNAME := "aws-bot";
     SLACK_EMOJI := ":aws:";
     ENVIRONMENT_NAME := "prod" |}.

(** The binary64 numbers 3.9, 6.99 and 8.5. *)
Definition f3_9 : spec_float := S754_finite false 8782019273372467 (-51).
Definition f6_99 : spec_float := S754_finite false 7870040348829942 (-50).
Definition f8_5 : spec_float := S754_finite false 4785074604081152 (-49).

(** A [float.__repr__] that is right on the floats named in this file. *)
Definition float_repr (f : spec_float) : string :=
  match f with
  | S754_finite false 8782019273372467 (-51) => "3.9"
  | S754_finite false 4503599627370496 (-50) => "4.0"
  | S754_finite false 7870040348829942 (-50) => "6.99"
  | S754_finite false 7881299347898368 (-50) => "7.0"
  | S754_finite false 4785074604081152 (-49) => "8.5"
  | S754_nan => "nan"
  | S754_infinity false => "inf"
  | S754_infinity true => "-inf"
  | S754_zero false => "0.0"
  | S754_zero true => "-0.0"
  | _ => "?"
  end.

(** A [json.loads] that is right on the texts it is run on in this file:
    [42] decodes to the int 42; [Hello world] and
    [Disk usage alert: see attachments] open with a letter that starts no
    JSON value and are rejected. *)
Definition json_loads (s : string) : py pyval :=
  if String.eqb s "42" then inr (PInt 42)
  else inl JSONDecodeError.

Definition alarm : dict :=
  [("AlarmName", PStr "cpu-high");
   ("AlarmDescription", PStr "CPU above 90%");
   ("NewStateValue", PStr "ALARM");
   ("NewStateReason", PStr "Threshold Crossed");
   ("OldStateValue", PStr "OK")].

Definition finding_with (score : pyval) : dict :=
  [("detail-type", PStr "GuardDuty Finding");
   ("region", PStr "us-gov-west-1");
   ("detail", PDict
      [("severity", score);
       ("title", PStr "Unusual API call");
       ("description", PStr "An API was called from an unusual address");
       ("type", PStr "Recon:IAMUser/UserPermissions");
       ("id", PStr "16afba5c");
       ("service", PDict
          [("eventFirstSeen", PStr "2020-01-01T00:00:00Z");
           ("eventLastSeen", PStr "2020-01-02T00:00:00Z");
           ("count", PInt 3)])])].

Definition finding : dict := finding_with (PFloat f8_5).

End Sample.

(** ** Delivery and entry point *)

(** Exceptions of the outer layer: those of the functions above, an index
    out of range, and whatever [Request] and [urlopen] raise that is not an
    [HTTPError]. *)
Inductive exc : Type :=
| Raised (e : pyerr)
| IndexError
| DeliveryError.

Abbreviation run := (sum exc).

(** A computation of the functions above inside the outer layer. *)
Definition lift {A : Type} (c : py A) : run A :=
  match c with
  | inl e => inl (Raised e)
  | inr a => inr a
  end.

(** What [urlopen] comes back with: a response, an [HTTPError] (both carry
    a status code and headers), or another exception. *)
Inductive reply : Type :=
| Answered (code : Z) (info : string)
| HTTPError (code : Z) (info : string)
| Failed.

(** A line of the log. *)
Inductive log_line : Type :=
| Warning (text : string)
| Error (text : string).

(** Characters [quote_plus] leaves alone when no character is declared
    safe: letters, digits and [_.-~]. *)
Definition always_safe (c : ascii) : bool :=
  let n := nat_of_ascii c in
  in_range 65 90 n || in_range 97 122 n || in_range 48 57 n
  || has_char c "_.-~".

Definition quote_plus_char (c : ascii) : string :=
  if Ascii.eqb c " "%char then "+"
  else if always_safe c then String c EmptyString
  else String.concat EmptyString (map (fun b => "%" ++ hex2 true b) (utf8 c)).

(** [urllib.parse.quote_plus(s, safe='')]. *)
Definition quote_plus (s : string) : string :=
  String.concat EmptyString (map quote_plus_char (list_ascii_of_string s)).

(** [urllib.parse.urlencode({"payload": s})]. *)
Definition urlencode_payload (s : string) : string :=
  quote_plus "payload" ++ "=" ++ quote_plus s.

(** [s.split(sep)] for a separator of one character. *)
Fixpoint split_on (sep : ascii) (s : string) : list string :=
  match s with
  | EmptyString => [EmptyString]
  | String c rest =>
      match split_on sep rest with
      | part :: parts =>
          if Ascii.eqb c sep then EmptyString :: part :: parts
          else String c part :: parts
      | [] => []
      end
  end.

(** [v.split(":")]. *)
Definition py_split_colon (v : pyval) : run (list string) :=
  match v with
  | PStr s => ret (split_on ":"%char s)
  | _ => raise (Raised AttributeError)
  end.

(** [parts[n]] on a list of strings. *)
Definition py_nth (parts : list string) (n : nat) : run string :=
  match nth_error parts n with
  | Some part => ret part
  | None => raise IndexError
  end.

(** [v[0]]. *)
Definition py_first (v : pyval) : run pyval :=
  match v with
  | PList (x :: _) => ret x
  | PList [] => raise IndexError
  | PStr (String c _) => ret (PStr (String c EmptyString))
  | PStr EmptyString => raise IndexError
  | PDict _ => raise (Raised (KeyError (PInt 0)))
  | _ => raise (Raised TypeError)
  end.

(** The float 200.0 in binary64. *)
Definition f200_0 : spec_float := S754_finite false 7036874417766400 (-45).

(** [v != 200]. *)
Definition py_ne_200 (v : pyval) : bool :=
  match v with
  | PInt z => negb (z =? 200)%Z
  | PFloat f => negb (SFeqb f f200_0)
  | _ => true
  end.

Section Handler.

Variable float_repr : spec_float -> string.
Variable json_loads : string -> py pyval.

(** Lines 12 to 14 of [decrypt]: the KMS client for the region of the
    runtime (the variable [AWS_REGION], which a lambda always has), its
    [decrypt] of the base64-decoded text and the decoding of the
    plaintext; [None] when any of them raises. *)
Variable kms_plaintext : string -> option string.

(** Lines 143 and 146 of [notify_slack]: the request to a URL is built and
    opened with the data. *)
Variable urlopen : pyval -> string -> reply.

(** [decrypt]: the plaintext, or [None] after an exception (which it logs). *)
Definition decrypt (encrypted_url : string) : pyval :=
  match kms_plaintext encrypted_url with
  | Some plaintext => PStr plaintext
  | None => PNone
  end.

(** The webhook [notify_slack] posts to. *)
Definition slack_url_of (env : environ) : pyval :=
  if negb (startswith (SLACK_WEBHOOK_URL env) "http")
  then decrypt (SLACK_WEBHOOK_URL env)
  else PStr (SLACK_WEBHOOK_URL env).

(** The text [notify_slack] returns for a status code and headers. *)
Definition response_text (code : Z) (info : string) : string :=
  json_dumps float_repr (PDict [("code", PInt code); ("info", PStr info)]).

Definition notify_slack (env : environ)
           (subject message region : pyval) : run string :=
  let slack_url := slack_url_of env in
  payload <- lift (notify_slack_payload float_repr json_loads env
                     subject message region) ;;
  let data := urlencode_payload (json_dumps float_repr (PDict payload)) in
  match urlopen slack_url data with
  | Answered code info => ret (response_text code info)
  | HTTPError code info => ret (response_text code info)
  | Failed => raise DeliveryError
  end.

(** [event['Records'][0]['Sns'][key]]. *)
Definition sns_field (event : pyval) (key : string) : run pyval :=
  records <- lift (py_getitem event "Records") ;;
  record <- py_first records ;;
  sns <- lift (py_getitem record "Sns") ;;
  lift (py_getitem sns key).

(** Lines 158 to 161 of [lambda_handler]: the response of [notify_slack]
    for the subject, the message and the region of the event. *)
Definition handle (env : environ) (event : pyval) : run string :=
  subject <- sns_field event "Subject" ;;
  message <- sns_field event "Message" ;;
  region <- (arn <- sns_field event "TopicArn" ;;
             parts <- py_split_colon arn ;;
             py_nth parts 3) ;;
  notify_slack env subject message (PStr region).

(** Lines 163 and 164: the line that is logged for a response whose code
    is not 200. *)
Definition status_check (event : pyval) (context response : string)
  : run (option log_line) :=
  code <- (decoded <- lift (json_loads response) ;;
           lift (py_getitem decoded "code")) ;;
  if py_ne_200 code then
    info <- (decoded <- lift (json_loads response) ;;
             lift (py_getitem decoded "info")) ;;
    ret (Some (Error ("Error: received status `" ++ py_str float_repr info
                      ++ "` using event `" ++ py_str float_repr event
                      ++ "` and context `" ++ context ++ "`")))
  else ret None.

(** [lambda_handler]: the lines it logs itself (what [notify_slack] and
    [decrypt] log is not kept), and the response it returns or the
    exception it ends in.  [log_events] is the value of the variable
    [LOG_EVENTS] when it is set, [context] the text of the context. *)
Definition lambda_handler (env : environ) (log_events : option string)
           (event : pyval) (context : string) : list log_line * run string :=
  let log :=
    match log_events with
    | Some value =>
        if String.eqb value "True"
        then [Warning ("Event logging enabled: `"
                       ++ json_dumps float_repr event ++ "`")]
        else []
    | None => []
    end in
  match handle env event with
  | inl e => (log, inl e)
  | inr response =>
      match status_check event context response with
      | inl e => (log, inl e)
      | inr (Some line) => ((log ++ [line])%list, inr response)
      | inr None => (log, inr response)
      end
  end.

End Handler.

(** * Vocabulary of the properties *)

(** Closes [NoDup] goals on explicit lists of keys. *)
Ltac nodup_keys :=
  repeat (constructor; [simpl; intuition discriminate|]); constructor.

(** A numeric score against a threshold, given as the integer [zc] and as
    the float [fc] of the same value: an int (a bool counts as 0 or 1) is
    compared as an integer, a float by the IEEE comparison. *)
Definition score_below (s : pyval) (zc : Z) (fc : spec_float) : bool :=
  match s with
  | PInt z => (z <? zc)%Z
  | PBool b => ((if b then 1 else 0) <? zc)%Z
  | PFloat f => SFltb f fc
  | _ => false
  end.

(** The score is at least the threshold. *)
Definition score_at_least (s : pyval) (zc : Z) (fc : spec_float) : bool :=
  match s with
  | PInt z => (zc <=? z)%Z
  | PBool b => (zc <=? (if b then 1 else 0))%Z
  | PFloat f => SFleb fc f
  | _ => false
  end.

(** The value of the field titled [title] of an attachment. *)
Definition field_value (att : pyval) (title : string) : option pyval :=
  match py_getitem att "fields" with
  | inr (PList fields) =>
      match find (fun f => match py_getitem f "title" with
                           | inr t => py_eq_str t title
                           | inl _ => false
                           end) fields with
      | Some f => match py_getitem f "value" with
                  | inr v => Some v
                  | inl _ => None
                  end
      | None => None
      end
  | _ => None
  end.

(** The parts [guardduty_finding] reads from a finding. *)
Record finding_parts : Type := {
  fp_score : pyval;
  fp_title : pyval;
  fp_description : pyval;
  fp_type : pyval;
  fp_first_seen : pyval;
  fp_last_seen : pyval;
  fp_count : pyval;
  fp_id : string
}.

(** [m] is a finding that has all these parts. *)
Definition finding_message (m : dict) (p : finding_parts) : Prop :=
  exists detail service : dict,
    Dict.get "detail" m = Some (PDict detail)
    /\ Dict.get "severity" detail = Some (fp_score p)
    /\ Dict.get "title" detail = Some (fp_title p)
    /\ Dict.get "description" detail = Some (fp_description p)
    /\ Dict.get "type" detail = Some (fp_type p)
    /\ Dict.get "id" detail = Some (PStr (fp_id p))
    /\ Dict.get "service" detail = Some (PDict service)
    /\ Dict.get "eventFirstSeen" service = Some (fp_first_seen p)
    /\ Dict.get "eventLastSeen" service = Some (fp_last_seen p)
    /\ Dict.get "count" service = Some (fp_count p).

(** The console of the partition a region is in. *)
Definition console_host (region : string) : string :=
  if startswith region "us-gov-"
  then "https://console.amazonaws-us-gov.com"
  else "https://console.aws.amazon.com".

(** The attachment of a finding with the parts [p], for the region, the
    severity label and the colour given. *)
Definition finding_attachment (float_repr : spec_float -> string)
    (p : finding_parts) (region severity color : string) : pyval :=
  PDict
    [("color", PStr color);
     ("fallback", PStr ("GuardDuty Finding: " ++ py_str float_repr (fp_title p)));
     ("fields", PList
        [field "Description" (fp_description p) false;
         field "Finding type" (fp_type p) false;
         field "First Seen" (fp_first_seen p) true;
         field "Last Seen" (fp_last_seen p) true;
         field "Severity" (PStr severity) true;
         field "Count" (fp_count p) true;
         field "Link to Finding"
           (PStr (console_host region ++ "/guardduty/home?region=" ++ region
                  ++ "#/findings?search=id%3D" ++ fp_id p)) false])].

(** The parts of the sample finding with a given score. *)
Definition sample_parts (score : pyval) : finding_parts :=
  {| fp_score := score;
     fp_title := PStr "Unusual API call";
     fp_description := PStr "An API was called from an unusual address";
     fp_type := PStr "Recon:IAMUser/UserPermissions";
     fp_first_seen := PStr "2020-01-01T00:00:00Z";
     fp_last_seen := PStr "2020-01-02T00:00:00Z";
     fp_count := PInt 3;
     fp_id := "16afba5c" |}.

(** The parts [cloudwatch_notification] reads from an alarm. *)
Record alarm_parts : Type := {
  ap_name : string;
  ap_description : pyval;
  ap_reason : pyval;
  ap_old_state : pyval;
  ap_new_state : pyval
}.

(** [m] is an alarm that has all these parts. *)
Definition alarm_message (m : dict) (p : alarm_parts) : Prop :=
  Dict.get "AlarmName" m = Some (PStr (ap_name p))
  /\ Dict.get "AlarmDescription" m = Some (ap_description p)
  /\ Dict.get "NewStateReason" m = Some (ap_reason p)
  /\ Dict.get "OldStateValue" m = Some (ap_old_state p)
  /\ Dict.get "NewStateValue" m = Some (ap_new_state p).

(** The attachment of an alarm with the parts [p], for the region and the
    colour given. *)
Definition alarm_attachment (p : alarm_parts) (region color : string) : pyval :=
  PDict
    [("color", PStr color);
     ("fallback", PStr ("Alarm " ++ ap_name p ++ " triggered"));
     ("fields", PList
        [field "Alarm Name" (PStr (ap_name p)) true;
         field "Alarm Description" (ap_description p) false;
         field "Alarm reason" (ap_reason p) false;
         field "Old State" (ap_old_state p) true;
         field "Current State" (ap_new_state p) true;
         field "Link to Alarm"
           (PStr (console_host region ++ "/cloudwatch/home?region=" ++ region
                  ++ "#alarm:alarmFilter=ANY;name=" ++ quote (ap_name p)))
           false])].

(** What [states[v]] raises for a value that is not a key of [states]. *)
Definition lookup_error (v : pyval) : pyerr :=
  match v with
  | PList _ | PDict _ => TypeError
  | _ => KeyError v
  end.

(** [v] is one of the three states of [alarm_states]. *)
Definition known_state (v : pyval) : Prop :=
  v = PStr "OK" \/ v = PStr "INSUFFICIENT_DATA" \/ v = PStr "ALARM".

(** The characters of an escaped text: those [quote] leaves alone, and the
    percent sign of an escape. *)
Definition url_char (c : ascii) : bool := quote_safe c || Ascii.eqb c "%"%char.

(** The invariant of the envelope as the data model words it: the text is
    there and not empty; there is one attachment, or, for a pre-formatted
    message, the attachments are those of the message. *)
Definition envelope_invariant_as_stated (m p : dict) : Prop :=
  (exists t, Dict.get "text" p = Some (PStr t) /\ t <> EmptyString)
  /\ match shape_of_keys m with
     | PreformattedShape =>
         forall l, Dict.get "attachments" m = Some l ->
                   Dict.get "attachments" p = Some l
     | _ => exists a, Dict.get "attachments" p = Some (PList [a])
     end.

(** The test [k in text] for one of the four keys of the chain. *)
Definition names_shape_key (text : string) : bool :=
  str_contains "AlarmName" text || str_contains "detail-type" text
  || str_contains "attachments" text || str_contains "text" text.

(** The first of the keys that the mapping does not have. *)
Definition first_absent (keys : list string) (m : dict) : option string :=
  find (fun k => negb (Dict.mem k m)) keys.

(** The value is an int, a bool or a float. *)
Definition is_number (v : pyval) : bool :=
  match v with
  | PInt _ | PBool _ | PFloat _ => true
  | _ => false
  end.

(** The rank of a severity label. *)
Definition rank (label : string) : nat :=
  if String.eqb label "Low" then 0
  else if String.eqb label "Medium" then 1
  else 2.

(** The characters of a form-encoded value: those [quote_plus] leaves
    alone, the plus sign of a space and the percent sign of an escape. *)
Definition form_char (c : ascii) : bool :=
  always_safe c || Ascii.eqb c "+"%char || Ascii.eqb c "%"%char.

(** The string has no colon. *)
Definition colon_free (s : string) : bool := negb (has_char ":"%char s).

(** [event] is a mapping whose first record has the mapping [sns] under
    [Sns]. *)
Definition event_sns (event : pyval) (sns : dict) : Prop :=
  exists (e record : dict) (others : list pyval),
    event = PDict e
    /\ Dict.get "Records" e = Some (PList (PDict record :: others))
    /\ Dict.get "Sns" record = Some (PDict sns).

(** The line [lambda_handler] logs first when [LOG_EVENTS] is [True]. *)
Definition event_log (float_repr : spec_float -> string)
    (log_events : option string) (event : pyval) : list log_line :=
  match log_events with
  | Some value =>
      if String.eqb value "True"
      then [Warning ("Event logging enabled: `"
                     ++ json_dumps float_repr event ++ "`")]
      else []
  | None => []
  end.

(** The line [lambda_handler] logs for a response that is not a 200. *)
Definition status_line (float_repr : spec_float -> string)
    (info event : pyval) (context : string) : log_line :=
  Error ("Error: received status `" ++ py_str float_repr info
         ++ "` using event `" ++ py_str float_repr event
         ++ "` and context `" ++ context ++ "`").

(** The event of a message published to a topic. *)
Definition sample_event (arn : string) (message : pyval) : pyval :=
  PDict [("Records",
          PList [PDict [("EventSource", PStr "aws:sns");
                        ("Sns", PDict [("Subject", PStr "Test");
                                       ("Message", message);
                                       ("TopicArn", PStr arn)])]])].

(** A [json.loads] that also reads back the response for the code 404
    without headers. *)
Definition sample_loads (s : string) : py pyval :=
  if String.eqb s (response_text Sample.float_repr 404 EmptyString)
  then inr (PDict [("code", PInt 404); ("info", PStr EmptyString)])
  else Sample.json_loads s.

(** * Properties *)

(** ** Dictionaries *)

Module DictFacts.

Lemma get_set_same (k : string) (v : pyval) (d : dict) :
  Dict.get k (Dict.set k v d) = Some v.
Proof.
  induction d as [|[k' v'] d IH]; simpl.
  - now rewrite String.eqb_refl.
  - destruct (String.eqb_spec k k') as [->|Hne]; simpl.
    + now rewrite String.eqb_refl.
    + apply String.eqb_neq in Hne. now rewrite Hne.
Qed.

Lemma get_set_other (k k' : string) (v : pyval) (d : dict) :
  k <> k' -> Dict.get k (Dict.set k' v d) = Dict.get k d.
Proof.
  intros Hne. induction d as [|[k0 v0] d IH]; simpl.
  - apply String.eqb_neq in Hne. now rewrite Hne.
  - destruct (String.eqb_spec k' k0) as [->|Hne']; simpl.
    + apply String.eqb_neq in Hne. now rewrite Hne.
    + now rewrite IH.
Qed.

Lemma get_absent (k : string) (d : dict) :
  ~ In k (Dict.keys d) -> Dict.get k d = None.
Proof.
  induction d as [|[k' v'] d IH]; simpl; intros Hin; [reflexivity|].
  destruct (String.eqb_spec k k') as [->|Hne].
  - exfalso. apply Hin. now left.
  - apply IH. intros H. apply Hin. now right.
Qed.

(** A key of the right operand of a merge takes its value from there,
    any other key from the left operand. *)
Lemma get_merge (k : string) (b : dict) :
  NoDup (Dict.keys b) ->
  forall a : dict,
    Dict.get k (Dict.merge a b) =
    match Dict.get k b with
    | Some v => Some v
    | None => Dict.get k a
    end.
Proof.
  unfold Dict.merge.
  induction b as [|[k' v'] b IH]; intros Hnd a; simpl; [reflexivity|].
  inversion Hnd as [|? ? Hnotin Hnd']; subst.
  rewrite (IH Hnd').
  destruct (String.eqb_spec k k') as [->|Hne].
  - rewrite (get_absent _ _ Hnotin). apply get_set_same.
  - now rewrite (get_set_other _ _ _ _ Hne).
Qed.

Lemma mem_true (k : string) (d : dict) :
  Dict.mem k d = true <-> exists v, Dict.get k d = Some v.
Proof.
  unfold Dict.mem. destruct (Dict.get k d) as [v|]; split.
  - intros _. now exists v.
  - reflexivity.
  - discriminate.
  - intros [v H]. discriminate.
Qed.

End DictFacts.

(** ** The dispatcher in terms of shapes *)

Section Dispatch.

Variable float_repr : spec_float -> string.
Variable json_loads : string -> py pyval.
Variable env : environ.

(** [notify_slack] runs the tests of [classify] and then the branch of
    the shape they give. *)
Lemma notify_slack_payload_branch (subject message region : pyval) :
  notify_slack_payload float_repr json_loads env subject message region =
  (msg <- decode json_loads message ;;
   s <- classify msg ;;
   branch float_repr env s subject msg region).
Proof.
  unfold notify_slack_payload, classify. simpl.
  destruct (decode json_loads message) as [e|msg]; [reflexivity|].
  destruct (py_in "AlarmName" msg) as [e|[|]]; try reflexivity.
  destruct (py_in "detail-type" msg) as [e|[|]]; try reflexivity.
  - destruct (py_getitem msg "detail-type") as [e|ty]; [reflexivity|].
    destruct (py_eq_str ty "GuardDuty Finding"); [reflexivity|].
    destruct (py_in "attachments" msg) as [e|[|]]; try reflexivity.
    destruct (py_in "text" msg) as [e|[|]]; reflexivity.
  - destruct (py_in "attachments" msg) as [e|[|]]; try reflexivity.
    destruct (py_in "text" msg) as [e|[|]]; reflexivity.
Qed.

(** On a mapping the tests never raise and pick the shape that the keys
    give. *)
Lemma classify_dict (m : dict) : classify (PDict m) = inr (shape_of_keys m).
Proof.
  unfold classify, shape_of_keys, is_guardduty. simpl.
  destruct (Dict.mem "AlarmName" m); [reflexivity|].
  unfold Dict.mem.
  destruct (Dict.get "detail-type" m) as [ty|]; simpl.
  - destruct (py_eq_str ty "GuardDuty Finding"); [reflexivity|].
    destruct (Dict.get "attachments" m); simpl; [reflexivity|].
    destruct (Dict.get "text" m); reflexivity.
  - destruct (Dict.get "attachments" m); simpl; [reflexivity|].
    destruct (Dict.get "text" m); reflexivity.
Qed.

(** A message that is handed over as a mapping is not decoded. *)
Lemma notify_slack_payload_dict (subject region : pyval) (m : dict) :
  notify_slack_payload float_repr json_loads env subject (PDict m) region =
  branch float_repr env (shape_of_keys m) subject (PDict m) region.
Proof.
  rewrite notify_slack_payload_branch. simpl.
  now rewrite classify_dict.
Qed.

End Dispatch.

(** ** Pre-formatted messages *)

(** C6. In the pre-formatted branch the payload is the base payload with
    the message merged over it: every key of the message has the message's
    value in the result, and every other key has the value the base payload
    gives it (channel, username and icon when the message does not set
    them). *)
Theorem preformatted_merge_caller_wins
    (float_repr : spec_float -> string) (json_loads : string -> py pyval)
    (env : environ) (subject message region : pyval) (m : dict) :
  decode json_loads message = inr (PDict m) ->
  NoDup (Dict.keys m) ->
  shape_of_keys m = PreformattedShape ->
  exists p : dict,
    notify_slack_payload float_repr json_loads env subject message region = inr p
    /\ (forall k v, Dict.get k m = Some v -> Dict.get k p = Some v)
    /\ (forall k, Dict.get k m = None ->
                  Dict.get k p = Dict.get k (base_payload env)).
Proof.
  intros Hdec Hnd Hshape.
  exists (Dict.merge (base_payload env) m).
  split; [|split].
  - rewrite notify_slack_payload_branch, Hdec. simpl.
    rewrite classify_dict, Hshape. reflexivity.
  - intros k v Hk. rewrite (DictFacts.get_merge k m Hnd). now rewrite Hk.
  - intros k Hk. rewrite (DictFacts.get_merge k m Hnd). now rewrite Hk.
Qed.

(** The message [{"text": "hi", "channel": "#other"}] replaces the channel
    and sets the text; username and icon stay as configured. *)
Lemma preformatted_merge_caller_wins_witness :
  exists p : dict,
    notify_slack_payload Sample.float_repr Sample.json_loads Sample.env PNone
      (PDict [("text", PStr "hi"); ("channel", PStr "#other")])
      (PStr "us-east-1") = inr p
    /\ Dict.get "channel" p = Some (PStr "#other")
    /\ Dict.get "text" p = Some (PStr "hi")
    /\ Dict.get "username" p = Some (PStr "aws-bot")
    /\ Dict.get "icon_emoji" p = Some (PStr ":aws:").
Proof.
  destruct (preformatted_merge_caller_wins
              Sample.float_repr Sample.json_loads Sample.env PNone
              (PDict [("text", PStr "hi"); ("channel", PStr "#other")])
              (PStr "us-east-1")
              [("text", PStr "hi"); ("channel", PStr "#other")])
    as (p & Hp & Hin & Hout).
  - reflexivity.
  - nodup_keys.
  - reflexivity.
  - exists p. split; [exact Hp|].
    split; [apply Hin; reflexivity|].
    split; [apply Hin; reflexivity|].
    split; [rewrite Hout; reflexivity|rewrite Hout; reflexivity].
Defined.

(** ** The generic field renderer *)

Section Renderer.

Variable float_repr : spec_float -> string.

(** The loop of [default_notification] appends the fields of the remaining
    items, in their order, to the fields it has. *)
Lemma fold_append_field (d : dict) :
  forall acc : list pyval,
    fold_left (append_field float_repr) d acc =
    (acc ++ map (render_field float_repr) d)%list.
Proof.
  induction d as [|kv d IH]; intros acc; simpl.
  - now rewrite app_nil_r.
  - rewrite IH. unfold append_field.
    rewrite <- app_assoc. reflexivity.
Qed.

End Renderer.

(** C4. For a mapping, the generic notification has one field per item, in
    the order of the items; the field of an item is titled by its key, its
    value is the rendered value (the JSON text between backquotes for a
    mapping or a list, the string form otherwise) and it is short exactly
    when that text is shorter than 25 characters: short at length 24, not
    short at length 25. *)
Theorem default_notification_fields
    (float_repr : spec_float -> string) (subject : pyval) (d : dict) :
  py_getitem (default_notification float_repr subject (PDict d)) "fields" =
    inr (PList
           (map (fun kv =>
                   let value := render_value float_repr (snd kv) in
                   PDict [("title", PStr (fst kv));
                          ("value", PStr value);
                          ("short", PBool (String.length value <? 25)%nat)])
                d))
  /\ (forall l, render_value float_repr (PList l) =
                "`" ++ json_dumps float_repr (PList l) ++ "`")
  /\ (forall m, render_value float_repr (PDict m) =
                "`" ++ json_dumps float_repr (PDict m) ++ "`")
  /\ (forall v, (forall l, v <> PList l) -> (forall m, v <> PDict m) ->
                render_value float_repr v = py_str float_repr v)
  /\ (forall k v,
        String.length (render_value float_repr v) = 24%nat ->
        py_getitem (default_notification float_repr subject (PDict [(k, v)]))
                   "fields" =
        inr (PList [field k (PStr (render_value float_repr v)) true]))
  /\ (forall k v,
        String.length (render_value float_repr v) = 25%nat ->
        py_getitem (default_notification float_repr subject (PDict [(k, v)]))
                   "fields" =
        inr (PList [field k (PStr (render_value float_repr v)) false])).
Proof.
  split; [|split; [|split; [|split; [|split]]]].
  - unfold default_notification. simpl.
    rewrite fold_append_field. reflexivity.
  - reflexivity.
  - reflexivity.
  - intros v Hl Hm. destruct v; try reflexivity.
    + now elim (Hl l).
    + now elim (Hm d0).
  - intros k v Hlen.
    unfold default_notification, append_field, render_field. simpl.
    rewrite Hlen. reflexivity.
  - intros k v Hlen.
    unfold default_notification, append_field, render_field. simpl.
    rewrite Hlen. reflexivity.
Qed.

(** A message with a list, a 24-character string and a 25-character
    string gives three fields in that order, the last one not short. *)
Lemma default_notification_fields_witness :
  py_getitem
    (default_notification Sample.float_repr PNone
       (PDict [("ids", PList [PInt 1; PInt 2]);
               ("a", PStr "123456789012345678901234");
               ("b", PStr "1234567890123456789012345")])) "fields" =
  inr (PList [field "ids" (PStr "`[1, 2]`") true;
              field "a" (PStr "123456789012345678901234") true;
              field "b" (PStr "1234567890123456789012345") false])
  /\ py_getitem
       (default_notification Sample.float_repr PNone
          (PDict [("a", PStr "123456789012345678901234")])) "fields" =
     inr (PList [field "a" (PStr "123456789012345678901234") true])
  /\ py_getitem
       (default_notification Sample.float_repr PNone
          (PDict [("b", PStr "1234567890123456789012345")])) "fields" =
     inr (PList [field "b" (PStr "1234567890123456789012345") false]).
Proof.
  split; [|split].
  - exact (proj1 (default_notification_fields Sample.float_repr PNone
             [("ids", PList [PInt 1; PInt 2]);
              ("a", PStr "123456789012345678901234");
              ("b", PStr "1234567890123456789012345")])).
  - apply (proj1 (proj2 (proj2 (proj2 (proj2
             (default_notification_fields Sample.float_repr PNone [])))))).
    reflexivity.
  - apply (proj2 (proj2 (proj2 (proj2 (proj2
             (default_notification_fields Sample.float_repr PNone [])))))).
    reflexivity.
Defined.

(** ** Severity of a finding *)

(** The constants of the model are the binary64 numbers that the decimal
    literals denote. *)
#[warnings="-inexact-float"]
Example float_constants :
  Prim2SF 4.0%float = f4_0 /\ Prim2SF 7.0%float = f7_0
  /\ Prim2SF 3.9%float = Sample.f3_9 /\ Prim2SF 6.99%float = Sample.f6_99
  /\ Prim2SF 8.5%float = Sample.f8_5.
Proof. repeat split; vm_compute; reflexivity. Qed.

Module FloatFacts.

Lemma two_pow_50 : (2 ^ 50 = 1125899906842624)%Z.
Proof. vm_compute. reflexivity. Qed.

Lemma Z_ltb_float_4 (z : Z) : Z_ltb_float z f4_0 = (z <? 4)%Z.
Proof.
  unfold Z_ltb_float, f4_0.
  change (0 <=? -50)%Z with false. cbv iota.
  change (- -50)%Z with 50%Z. rewrite two_pow_50.
  destruct (Z.ltb_spec z 4) as [H|H]; [apply Z.ltb_lt|apply Z.ltb_ge]; lia.
Qed.

Lemma Z_ltb_float_7 (z : Z) : Z_ltb_float z f7_0 = (z <? 7)%Z.
Proof.
  unfold Z_ltb_float, f7_0.
  change (0 <=? -50)%Z with false. cbv iota.
  change (- -50)%Z with 50%Z. rewrite two_pow_50.
  destruct (Z.ltb_spec z 7) as [H|H]; [apply Z.ltb_lt|apply Z.ltb_ge]; lia.
Qed.

(** Swapping the operands of the IEEE comparison swaps its result. *)
Lemma SFcompare_swap (a b : spec_float) :
  SFcompare b a = option_map CompOpp (SFcompare a b).
Proof.
  destruct a as [sa|sa| |sa ma ea], b as [sb|sb| |sb mb eb];
    try reflexivity;
    try (destruct sa; reflexivity);
    try (destruct sb; reflexivity);
    try (destruct sa, sb; reflexivity).
  unfold SFcompare, option_map.
  destruct sa, sb; try reflexivity;
    rewrite (Z.compare_antisym ea eb);
    destruct (ea ?= eb)%Z; cbn [CompOpp]; try reflexivity;
    rewrite (Pos.compare_cont_antisym ma mb Eq); cbn [CompOpp];
    now rewrite ?CompOpp_involutive.
Qed.

Lemma SFleb_not_SFltb (a b : spec_float) :
  SFleb a b = true -> SFltb b a = false.
Proof.
  unfold SFleb, SFltb. rewrite (SFcompare_swap a b).
  destruct (SFcompare a b) as [[| |]|]; cbn; congruence.
Qed.

(** Two positive finite floats with the same exponent [e0] and mantissas
    [lo <= hi]: what is at least the larger is not below the smaller. *)
Lemma finite_at_least_not_below (lo hi : positive) (e0 : Z) (f : spec_float) :
  (lo <= hi)%positive ->
  SFleb (S754_finite false hi e0) f = true ->
  SFltb f (S754_finite false lo e0) = false.
Proof.
  intros Hle. unfold SFleb, SFltb.
  destruct f as [s|s| |s m e];
    [destruct s; intros H; discriminate H
    |destruct s; intros H; [discriminate H|reflexivity]
    |intros H; discriminate H
    |destruct s; [intros H; discriminate H|]].
  unfold SFcompare.
  rewrite (Pos.compare_cont_spec hi m Eq), (Pos.compare_cont_spec m lo Eq).
  cbn [Pos.switch_Eq].
  rewrite (Z.compare_antisym e0 e).
  destruct (Z.compare_spec e0 e) as [Heq|Hlt|Hgt]; cbn [CompOpp].
  - destruct (Pos.compare_spec hi m) as [Heq'|H|H];
      intros H'; try discriminate H'.
    + subst m. destruct (Pos.compare_spec hi lo); try reflexivity; lia.
    + destruct (Pos.compare_spec m lo); try reflexivity; lia.
  - reflexivity.
  - intros H'; discriminate H'.
Qed.

(** A float that is at least 7.0 is not below 4.0. *)
Lemma at_least_7_not_below_4 (f : spec_float) :
  SFleb f7_0 f = true -> SFltb f f4_0 = false.
Proof.
  apply finite_at_least_not_below.
  apply Pos.leb_le. vm_compute. reflexivity.
Qed.

End FloatFacts.

(** ** Attachments of well-formed alarms and findings *)

Lemma append_assoc (a b c : string) : (a ++ b) ++ c = a ++ (b ++ c).
Proof. induction a as [|x a IH]; simpl; [reflexivity|now rewrite IH]. Qed.

Section Attachments.

Variable float_repr : spec_float -> string.

Lemma severity_of_label (score : pyval) (severity : string) :
  severity_of score = inr severity ->
  severity = "Low" \/ severity = "Medium" \/ severity = "High".
Proof.
  unfold severity_of.
  destruct (py_lt_float score f4_0) as [e|[|]]; cbn;
    [discriminate|intros H; injection H as <-; now left|].
  destruct (py_lt_float score f7_0) as [e|[|]]; cbn;
    [discriminate| |]; intros H; injection H as <-; auto.
Qed.

(** A finding with all its parts and a numeric score gets its attachment. *)
Lemma guardduty_finding_complete (m : dict) (p : finding_parts)
      (region severity : string) :
  finding_message m p ->
  severity_of (fp_score p) = inr severity ->
  exists color,
    find (fun kv => String.eqb severity (fst kv)) finding_states
      = Some (severity, color)
    /\ guardduty_finding float_repr (PDict m) (PStr region) =
       inr (finding_attachment float_repr p region severity color).
Proof.
  intros (detail & service & Hd & Hsev & Htitle & Hdesc & Hty & Hid & Hsvc
          & Hfirst & Hlast & Hcount) Hseverity.
  assert (Hcolor : exists color,
             find (fun kv => String.eqb severity (fst kv)) finding_states
             = Some (severity, color)).
  { destruct (severity_of_label _ _ Hseverity) as [->|[->| ->]];
      eexists; reflexivity. }
  destruct Hcolor as [color Hcolor]. exists color. split; [exact Hcolor|].
  unfold guardduty_finding, finding_attachment, console_host, py_startswith,
    py_lookup, py_getitem.
  cbn [bind ret Monad_either].
  rewrite Hd, Hsev. cbn [bind ret Monad_either]. rewrite Hseverity.
  rewrite Hcolor, Htitle, Hdesc, Hty, Hsvc, Hfirst, Hlast, Hcount, Hid.
  cbn [snd py_add_str bind ret Monad_either].
  destruct (startswith region "us-gov-"); cbn [py_add_str];
    rewrite !append_assoc; reflexivity.
Qed.

End Attachments.

Module ScoreFacts.

(** The code's comparison [score < 4.0] is [score_below] at 4, and
    likewise at 7, on every numeric score. *)
Lemma py_lt_float_4 (s : pyval) (b : bool) :
  score_below s 4 f4_0 = b ->
  (exists z, s = PInt z) \/ (exists c, s = PBool c) \/ (exists f, s = PFloat f) ->
  py_lt_float s f4_0 = inr b.
Proof.
  intros H [[z ->]|[[c ->]|[f ->]]]; unfold py_lt_float;
    rewrite ?FloatFacts.Z_ltb_float_4; cbn in H |- *; now rewrite H.
Qed.

Lemma py_lt_float_7 (s : pyval) (b : bool) :
  score_below s 7 f7_0 = b ->
  (exists z, s = PInt z) \/ (exists c, s = PBool c) \/ (exists f, s = PFloat f) ->
  py_lt_float s f7_0 = inr b.
Proof.
  intros H [[z ->]|[[c ->]|[f ->]]]; unfold py_lt_float;
    rewrite ?FloatFacts.Z_ltb_float_7; cbn in H |- *; now rewrite H.
Qed.

Lemma below_numeric (s : pyval) (zc : Z) (fc : spec_float) :
  score_below s zc fc = true ->
  (exists z, s = PInt z) \/ (exists c, s = PBool c) \/ (exists f, s = PFloat f).
Proof. destruct s; try discriminate; eauto. Qed.

Lemma at_least_numeric (s : pyval) (zc : Z) (fc : spec_float) :
  score_at_least s zc fc = true ->
  (exists z, s = PInt z) \/ (exists c, s = PBool c) \/ (exists f, s = PFloat f).
Proof. destruct s; try discriminate; eauto. Qed.

Lemma at_least_not_below (s : pyval) (zc : Z) (fc : spec_float) :
  score_at_least s zc fc = true -> score_below s zc fc = false.
Proof.
  destruct s; try reflexivity; unfold score_at_least, score_below; intros H.
  - apply Z.ltb_ge. now apply Z.leb_le.
  - apply Z.ltb_ge. now apply Z.leb_le.
  - now apply FloatFacts.SFleb_not_SFltb.
Qed.

Lemma score_at_least_7_not_below_4 (s : pyval) :
  score_at_least s 7 f7_0 = true -> score_below s 4 f4_0 = false.
Proof.
  destruct s; try reflexivity; unfold score_at_least, score_below; intros H.
  - apply Z.leb_le in H. apply Z.ltb_ge. lia.
  - apply Z.leb_le in H. apply Z.ltb_ge. lia.
  - now apply FloatFacts.at_least_7_not_below_4.
Qed.

Lemma severity_low (s : pyval) :
  score_below s 4 f4_0 = true -> severity_of s = inr "Low".
Proof.
  intros H. unfold severity_of.
  rewrite (py_lt_float_4 s true H (below_numeric _ _ _ H)). reflexivity.
Qed.

Lemma severity_medium (s : pyval) :
  score_at_least s 4 f4_0 = true -> score_below s 7 f7_0 = true ->
  severity_of s = inr "Medium".
Proof.
  intros H4 H7. unfold severity_of.
  rewrite (py_lt_float_4 s false (at_least_not_below _ _ _ H4)
             (at_least_numeric _ _ _ H4)).
  cbn [bind Monad_either].
  rewrite (py_lt_float_7 s true H7 (below_numeric _ _ _ H7)). reflexivity.
Qed.

Lemma severity_high (s : pyval) :
  score_at_least s 7 f7_0 = true -> severity_of s = inr "High".
Proof.
  intros H7. unfold severity_of.
  rewrite (py_lt_float_4 s false (score_at_least_7_not_below_4 _ H7)
             (at_least_numeric _ _ _ H7)).
  cbn [bind Monad_either].
  rewrite (py_lt_float_7 s false (at_least_not_below _ _ _ H7)
             (at_least_numeric _ _ _ H7)). reflexivity.
Qed.

End ScoreFacts.

(** C2. A finding whose score is below 4.0 is labelled Low and coloured
    gray ([#777777]); one whose score is at least 4.0 and below 7.0 is
    labelled Medium and coloured [warning]; one whose score is at least 7.0
    is labelled High and coloured [danger].  The label is the value of the
    Severity field and the colour that of the attachment.  The scores 3.9,
    4.0, 6.99 and 7.0 are labelled Low, Medium, Medium and High. *)
Theorem finding_severity_buckets
    (float_repr : spec_float -> string) (m : dict) (p : finding_parts)
    (region : string) :
  finding_message m p ->
  (score_below (fp_score p) 4 f4_0 = true ->
   guardduty_finding float_repr (PDict m) (PStr region) =
   inr (finding_attachment float_repr p region "Low" "#777777"))
  /\ (score_at_least (fp_score p) 4 f4_0 = true ->
      score_below (fp_score p) 7 f7_0 = true ->
      guardduty_finding float_repr (PDict m) (PStr region) =
      inr (finding_attachment float_repr p region "Medium" "warning"))
  /\ (score_at_least (fp_score p) 7 f7_0 = true ->
      guardduty_finding float_repr (PDict m) (PStr region) =
      inr (finding_attachment float_repr p region "High" "danger"))
  /\ severity_of (PFloat Sample.f3_9) = inr "Low"
  /\ severity_of (PFloat f4_0) = inr "Medium"
  /\ severity_of (PFloat Sample.f6_99) = inr "Medium"
  /\ severity_of (PFloat f7_0) = inr "High".
Proof.
  intros Hm.
  assert (Hrun : forall severity color,
             severity_of (fp_score p) = inr severity ->
             find (fun kv => String.eqb severity (fst kv)) finding_states
             = Some (severity, color) ->
             guardduty_finding float_repr (PDict m) (PStr region) =
             inr (finding_attachment float_repr p region severity color)).
  { intros severity color Hsev Hcol.
    destruct (guardduty_finding_complete float_repr m p region severity Hm Hsev)
      as (color' & Hcol' & Hrun).
    rewrite Hcol in Hcol'. injection Hcol' as <-. exact Hrun. }
  split; [|split; [|split]].
  - intros H. apply Hrun; [now apply ScoreFacts.severity_low|reflexivity].
  - intros H4 H7.
    apply Hrun; [now apply ScoreFacts.severity_medium|reflexivity].
  - intros H. apply Hrun; [now apply ScoreFacts.severity_high|reflexivity].
  - repeat split; vm_compute; reflexivity.
Qed.

Lemma sample_finding_message (score : pyval) :
  finding_message (Sample.finding_with score) (sample_parts score).
Proof.
  eexists. eexists. repeat split; reflexivity.
Qed.

(** The scores 3.9, 6.99 and 8.5 of the sample finding. *)
Lemma finding_severity_buckets_witness :
  guardduty_finding Sample.float_repr
    (PDict (Sample.finding_with (PFloat Sample.f3_9))) (PStr "us-east-1") =
  inr (finding_attachment Sample.float_repr (sample_parts (PFloat Sample.f3_9))
         "us-east-1" "Low" "#777777")
  /\ guardduty_finding Sample.float_repr
       (PDict (Sample.finding_with (PFloat Sample.f6_99))) (PStr "us-east-1") =
     inr (finding_attachment Sample.float_repr
            (sample_parts (PFloat Sample.f6_99)) "us-east-1" "Medium" "warning")
  /\ guardduty_finding Sample.float_repr
       (PDict (Sample.finding_with (PFloat Sample.f8_5))) (PStr "us-east-1") =
     inr (finding_attachment Sample.float_repr
            (sample_parts (PFloat Sample.f8_5)) "us-east-1" "High" "danger").
Proof.
  split; [|split].
  - apply (proj1 (finding_severity_buckets Sample.float_repr _ _ "us-east-1"
                    (sample_finding_message (PFloat Sample.f3_9)))).
    vm_compute. reflexivity.
  - apply (proj1 (proj2 (finding_severity_buckets Sample.float_repr _ _
                           "us-east-1"
                           (sample_finding_message (PFloat Sample.f6_99)))));
      vm_compute; reflexivity.
  - apply (proj1 (proj2 (proj2 (finding_severity_buckets Sample.float_repr _ _
                                  "us-east-1"
                                  (sample_finding_message (PFloat Sample.f8_5)))))).
    vm_compute. reflexivity.
Defined.

(** ** Alarms *)

Section Alarms.

Variable float_repr : spec_float -> string.

Lemma alarm_states_unknown (v : pyval) :
  ~ known_state v -> py_lookup alarm_states v = inl (lookup_error v).
Proof.
  unfold known_state. intros Hv.
  destruct v; try reflexivity.
  unfold py_lookup, alarm_states. cbn [find fst].
  destruct (String.eqb_spec s "OK") as [->|_]; [tauto|].
  destruct (String.eqb_spec s "INSUFFICIENT_DATA") as [->|_]; [tauto|].
  destruct (String.eqb_spec s "ALARM") as [->|_]; [tauto|].
  reflexivity.
Qed.

(** An alarm with all its parts and a state of the table gets its
    attachment. *)
Lemma cloudwatch_notification_complete (m : dict) (p : alarm_parts)
      (region state color : string) :
  alarm_message m p ->
  ap_new_state p = PStr state ->
  find (fun kv => String.eqb state (fst kv)) alarm_states = Some (state, color) ->
  cloudwatch_notification float_repr (PDict m) (PStr region) =
  inr (alarm_attachment p region color).
Proof.
  intros (Hname & Hdesc & Hreason & Hold & Hnew) Hstate Hcolor.
  unfold cloudwatch_notification, alarm_attachment, console_host,
    py_startswith, py_lookup, py_getitem, py_quote.
  cbn [bind ret Monad_either].
  rewrite Hnew, Hstate. cbn [bind ret Monad_either].
  rewrite Hcolor, Hname, Hdesc, Hreason, Hold.
  cbn [snd py_add_str py_quote py_str bind ret Monad_either].
  destruct (startswith region "us-gov-"); cbn [py_add_str];
    rewrite !append_assoc; reflexivity.
Qed.

(** With a state that is not in the table the lookup of the colour, which
    comes first, raises. *)
Lemma cloudwatch_notification_unknown (m : dict) (region : string) (v : pyval) :
  Dict.get "NewStateValue" m = Some v ->
  ~ known_state v ->
  cloudwatch_notification float_repr (PDict m) (PStr region) =
  inl (lookup_error v).
Proof.
  intros Hnew Hv.
  unfold cloudwatch_notification, py_startswith, py_getitem.
  cbn [bind ret Monad_either].
  rewrite Hnew. cbn [bind ret Monad_either].
  rewrite (alarm_states_unknown v Hv). reflexivity.
Qed.

End Alarms.

(** C3. The colour of an alarm is that of its new state in the table
    OK -> good, INSUFFICIENT_DATA -> warning, ALARM -> danger.  For an alarm
    whose new state is any other value the lookup raises (a [KeyError] on
    that value, a [TypeError] when it is unhashable): neither
    [cloudwatch_notification] nor [notify_slack] returns, no colour is
    made up. *)
Theorem alarm_state_closed_set
    (float_repr : spec_float -> string) (json_loads : string -> py pyval)
    (env : environ) (subject : pyval) (m : dict) (region : string) :
  (py_lookup alarm_states (PStr "OK") = inr (PStr "good")
   /\ py_lookup alarm_states (PStr "INSUFFICIENT_DATA") = inr (PStr "warning")
   /\ py_lookup alarm_states (PStr "ALARM") = inr (PStr "danger"))
  /\ (forall p : alarm_parts,
        alarm_message m p ->
        (ap_new_state p = PStr "OK" ->
         cloudwatch_notification float_repr (PDict m) (PStr region) =
         inr (alarm_attachment p region "good"))
        /\ (ap_new_state p = PStr "INSUFFICIENT_DATA" ->
            cloudwatch_notification float_repr (PDict m) (PStr region) =
            inr (alarm_attachment p region "warning"))
        /\ (ap_new_state p = PStr "ALARM" ->
            cloudwatch_notification float_repr (PDict m) (PStr region) =
            inr (alarm_attachment p region "danger")))
  /\ (forall v : pyval,
        Dict.mem "AlarmName" m = true ->
        Dict.get "NewStateValue" m = Some v ->
        ~ known_state v ->
        cloudwatch_notification float_repr (PDict m) (PStr region) =
        inl (lookup_error v)
        /\ notify_slack_payload float_repr json_loads env subject
             (PDict m) (PStr region) = inl (lookup_error v)).
Proof.
  split; [repeat split; reflexivity|split].
  - intros p Hm. repeat split; intros Hst;
      apply (cloudwatch_notification_complete float_repr m p region _ _ Hm Hst);
      reflexivity.
  - intros v Hname Hnew Hv.
    pose proof (cloudwatch_notification_unknown float_repr m region v Hnew Hv)
      as Hcw.
    split; [exact Hcw|].
    rewrite notify_slack_payload_dict. unfold shape_of_keys. rewrite Hname.
    unfold branch. rewrite Hcw. reflexivity.
Qed.

(** An alarm in state ALARM is coloured [danger]; the same alarm in the
    state PENDING makes [notify_slack] raise [KeyError: 'PENDING']. *)
Lemma alarm_state_closed_set_witness :
  cloudwatch_notification Sample.float_repr (PDict Sample.alarm)
    (PStr "us-east-1") =
  inr (alarm_attachment
         {| ap_name := "cpu-high";
            ap_description := PStr "CPU above 90%";
            ap_reason := PStr "Threshold Crossed";
            ap_old_state := PStr "OK";
            ap_new_state := PStr "ALARM" |} "us-east-1" "danger")
  /\ notify_slack_payload Sample.float_repr Sample.json_loads Sample.env PNone
       (PDict [("AlarmName", PStr "cpu-high");
               ("NewStateValue", PStr "PENDING")]) (PStr "us-east-1") =
     inl (KeyError (PStr "PENDING")).
Proof.
  split.
  - apply (proj1 (proj2 (alarm_state_closed_set Sample.float_repr
                           Sample.json_loads Sample.env PNone Sample.alarm
                           "us-east-1"))).
    + repeat split; reflexivity.
    + reflexivity.
  - apply (proj2 (proj2 (alarm_state_closed_set Sample.float_repr
                           Sample.json_loads Sample.env PNone
                           [("AlarmName", PStr "cpu-high");
                            ("NewStateValue", PStr "PENDING")]
                           "us-east-1")) (PStr "PENDING")).
    + reflexivity.
    + reflexivity.
    + unfold known_state. intuition discriminate.
Defined.

(** ** Console links *)

Module QuoteFacts.

Lemma quote_char_escaped (c : ascii) :
  forallb url_char (list_ascii_of_string (quote_char c)) = true.
Proof.
  destruct c as [[|] [|] [|] [|] [|] [|] [|] [|]]; vm_compute; reflexivity.
Qed.

Lemma list_ascii_app (a b : string) :
  list_ascii_of_string (a ++ b) =
  (list_ascii_of_string a ++ list_ascii_of_string b)%list.
Proof. induction a as [|x a IH]; simpl; [reflexivity|now rewrite IH]. Qed.

Lemma concat_escaped (parts : list string) :
  Forall (fun part => forallb url_char (list_ascii_of_string part) = true) parts ->
  forallb url_char (list_ascii_of_string (String.concat EmptyString parts)) = true.
Proof.
  induction 1 as [|part parts Hpart _ IH]; [reflexivity|].
  destruct parts as [|next parts]; [exact Hpart|].
  change (String.concat EmptyString (part :: next :: parts))
    with (part ++ EmptyString ++ String.concat EmptyString (next :: parts)).
  rewrite list_ascii_app, forallb_app, Hpart. exact IH.
Qed.

(** [quote] gives only characters it regards as safe and percent signs. *)
Lemma quote_escaped (s : string) :
  forallb url_char (list_ascii_of_string (quote s)) = true.
Proof.
  unfold quote. apply concat_escaped.
  apply Forall_forall. intros part Hin.
  apply in_map_iff in Hin as (c & <- & _). apply quote_char_escaped.
Qed.

End QuoteFacts.

(** C5. The links of an alarm and of a finding start with the console of
    the government partition exactly when the region starts with
    [us-gov-], and with the standard console otherwise; so with
    [us-gov-west-1] and [us-east-1].  The link of an alarm ends with the
    escaped alarm name as the [name] filter. *)
Theorem console_link_by_partition
    (float_repr : spec_float -> string) (region : string) :
  (forall (m : dict) (p : alarm_parts) (state color : string),
      alarm_message m p ->
      ap_new_state p = PStr state ->
      find (fun kv => String.eqb state (fst kv)) alarm_states
      = Some (state, color) ->
      exists att,
        cloudwatch_notification float_repr (PDict m) (PStr region) = inr att
        /\ field_value att "Link to Alarm" =
           Some (PStr (console_host region ++ "/cloudwatch/home?region="
                       ++ region ++ "#alarm:alarmFilter=ANY;name="
                       ++ quote (ap_name p)))
        /\ forallb url_char (list_ascii_of_string (quote (ap_name p))) = true)
  /\ (forall (m : dict) (p : finding_parts) (severity : string),
        finding_message m p ->
        severity_of (fp_score p) = inr severity ->
        exists att,
          guardduty_finding float_repr (PDict m) (PStr region) = inr att
          /\ field_value att "Link to Finding" =
             Some (PStr (console_host region ++ "/guardduty/home?region="
                         ++ region ++ "#/findings?search=id%3D" ++ fp_id p)))
  /\ (startswith region "us-gov-" = true ->
      console_host region = "https://console.amazonaws-us-gov.com")
  /\ (startswith region "us-gov-" = false ->
      console_host region = "https://console.aws.amazon.com")
  /\ console_host "us-gov-west-1" = "https://console.amazonaws-us-gov.com"
  /\ console_host "us-east-1" = "https://console.aws.amazon.com".
Proof.
  split; [|split; [|split; [|split; [|split]]]].
  - intros m p state color Hm Hstate Hcolor.
    exists (alarm_attachment p region color). split; [|split].
    + now apply (cloudwatch_notification_complete float_repr m p region state).
    + reflexivity.
    + apply QuoteFacts.quote_escaped.
  - intros m p severity Hm Hsev.
    destruct (guardduty_finding_complete float_repr m p region severity Hm Hsev)
      as (color & _ & Hrun).
    exists (finding_attachment float_repr p region severity color).
    split; [exact Hrun|reflexivity].
  - intros H. unfold console_host. now rewrite H.
  - intros H. unfold console_host. now rewrite H.
  - reflexivity.
  - reflexivity.
Qed.

(** The link of the alarm [cpu high] in [us-gov-west-1] and that of the
    sample finding in [us-east-1]. *)
Lemma console_link_by_partition_witness :
  (exists att,
      cloudwatch_notification Sample.float_repr
        (PDict [("AlarmName", PStr "cpu high");
                ("AlarmDescription", PNone);
                ("NewStateReason", PStr "Threshold Crossed");
                ("OldStateValue", PStr "OK");
                ("NewStateValue", PStr "ALARM")])
        (PStr "us-gov-west-1") = inr att
      /\ field_value att "Link to Alarm" =
         Some (PStr "https://console.amazonaws-us-gov.com/cloudwatch/home?region=us-gov-west-1#alarm:alarmFilter=ANY;name=cpu%20high"))
  /\ (exists att,
         guardduty_finding Sample.float_repr (PDict Sample.finding)
           (PStr "us-east-1") = inr att
         /\ field_value att "Link to Finding" =
            Some (PStr "https://console.aws.amazon.com/guardduty/home?region=us-east-1#/findings?search=id%3D16afba5c")).
Proof.
  split.
  - destruct (proj1 (console_link_by_partition Sample.float_repr "us-gov-west-1")
                [("AlarmName", PStr "cpu high");
                 ("AlarmDescription", PNone);
                 ("NewStateReason", PStr "Threshold Crossed");
                 ("OldStateValue", PStr "OK");
                 ("NewStateValue", PStr "ALARM")]
                {| ap_name := "cpu high";
                   ap_description := PNone;
                   ap_reason := PStr "Threshold Crossed";
                   ap_old_state := PStr "OK";
                   ap_new_state := PStr "ALARM" |}
                "ALARM" "danger")
      as (att & Hrun & Hlink & _).
    + repeat split; reflexivity.
    + reflexivity.
    + reflexivity.
    + exists att. split; [exact Hrun|exact Hlink].
  - destruct (proj1 (proj2 (console_link_by_partition Sample.float_repr
                              "us-east-1"))
                Sample.finding (sample_parts (PFloat Sample.f8_5)) "High")
      as (att & Hrun & Hlink).
    + apply sample_finding_message.
    + vm_compute. reflexivity.
    + exists att. split; [exact Hrun|exact Hlink].
Defined.

(** ** Findings in the dispatcher *)

(** C8. For a finding, the attachment is built for the region the message
    names, whatever region [notify_slack] was called with, and the text is
    the prefix, then [Amazon GuardDuty Finding - ], then the title of the
    detail of the message. *)
Theorem finding_uses_message_region
    (float_repr : spec_float -> string) (json_loads : string -> py pyval)
    (env : environ) (subject message caller_region : pyval)
    (m : dict) (p : finding_parts) (message_region severity title : string) :
  decode json_loads message = inr (PDict m) ->
  Dict.mem "AlarmName" m = false ->
  Dict.get "detail-type" m = Some (PStr "GuardDuty Finding") ->
  Dict.get "region" m = Some (PStr message_region) ->
  finding_message m p ->
  fp_title p = PStr title ->
  severity_of (fp_score p) = inr severity ->
  exists color,
    find (fun kv => String.eqb severity (fst kv)) finding_states
    = Some (severity, color)
    /\ notify_slack_payload float_repr json_loads env subject message
         caller_region =
       inr [("channel", PStr (SLACK_CHANNEL env));
            ("username", PStr (SLACK_USERNAME env));
            ("icon_emoji", PStr (SLACK_EMOJI env));
            ("attachments",
             PList [finding_attachment float_repr p message_region
                      severity color]);
            ("text", PStr (prefix_of env ++ "Amazon GuardDuty Finding - "
                           ++ title))].
Proof.
  intros Hdec Hname Hty Hregion Hm Htitle Hsev.
  destruct (guardduty_finding_complete float_repr m p message_region severity
              Hm Hsev) as (color & Hcolor & Hrun).
  exists color. split; [exact Hcolor|].
  rewrite notify_slack_payload_branch, Hdec. cbn [bind Monad_either].
  rewrite classify_dict. cbn [bind Monad_either].
  unfold shape_of_keys, is_guardduty. rewrite Hname, Hty.
  cbn [py_eq_str String.eqb Ascii.eqb Bool.eqb].
  destruct Hm as (detail & service & Hd & _ & Ht & _).
  unfold branch, py_getitem. cbn [bind ret Monad_either].
  rewrite Hregion. cbn [bind ret Monad_either]. rewrite Hrun, Hd.
  cbn [bind ret Monad_either]. rewrite Ht, Htitle.
  cbn [py_add_str bind ret Monad_either].
  rewrite append_assoc. reflexivity.
Qed.

(** The sample finding names [us-gov-west-1]; called with [us-east-1], the
    link is still that of the government console. *)
Lemma finding_uses_message_region_witness :
  exists att,
    notify_slack_payload Sample.float_repr Sample.json_loads Sample.env PNone
      (PDict Sample.finding) (PStr "us-east-1") =
    inr [("channel", PStr "#ops");
         ("username", PStr "aws-bot");
         ("icon_emoji", PStr ":aws:");
         ("attachments", PList [att]);
         ("text", PStr "[prod] Amazon GuardDuty Finding - Unusual API call")]
    /\ field_value att "Link to Finding" =
       Some (PStr "https://console.amazonaws-us-gov.com/guardduty/home?region=us-gov-west-1#/findings?search=id%3D16afba5c").
Proof.
  destruct (finding_uses_message_region Sample.float_repr Sample.json_loads
              Sample.env PNone (PDict Sample.finding) (PStr "us-east-1")
              Sample.finding (sample_parts (PFloat Sample.f8_5))
              "us-gov-west-1" "High" "Unusual API call")
    as (color & Hcolor & Hrun).
  - reflexivity.
  - reflexivity.
  - reflexivity.
  - reflexivity.
  - apply sample_finding_message.
  - reflexivity.
  - vm_compute. reflexivity.
  - injection Hcolor as <-.
    eexists. split; [exact Hrun|reflexivity].
Defined.

(** ** Order of the tests *)

(** C10. A mapping that has [AlarmName] is handled as an alarm, whatever
    else it has; one without it whose [detail-type] is [GuardDuty Finding]
    is handled as a finding, also when it has [attachments] or [text]; one
    that is neither and has [attachments] or [text] is merged into the
    payload; any other gets the generic notification.  Only that one branch
    runs. *)
Theorem dispatch_priority
    (float_repr : spec_float -> string) (json_loads : string -> py pyval)
    (env : environ) (subject message region : pyval) (m : dict) :
  decode json_loads message = inr (PDict m) ->
  (Dict.mem "AlarmName" m = true ->
   classify (PDict m) = inr AlarmShape
   /\ notify_slack_payload float_repr json_loads env subject message region =
      branch float_repr env AlarmShape subject (PDict m) region)
  /\ (Dict.mem "AlarmName" m = false ->
      is_guardduty m = true ->
      classify (PDict m) = inr FindingShape
      /\ notify_slack_payload float_repr json_loads env subject message region =
         branch float_repr env FindingShape subject (PDict m) region)
  /\ (Dict.mem "AlarmName" m = false ->
      is_guardduty m = false ->
      Dict.mem "attachments" m = true \/ Dict.mem "text" m = true ->
      classify (PDict m) = inr PreformattedShape
      /\ notify_slack_payload float_repr json_loads env subject message region =
         branch float_repr env PreformattedShape subject (PDict m) region)
  /\ (Dict.mem "AlarmName" m = false ->
      is_guardduty m = false ->
      Dict.mem "attachments" m = false ->
      Dict.mem "text" m = false ->
      classify (PDict m) = inr GenericShape
      /\ notify_slack_payload float_repr json_loads env subject message region =
         branch float_repr env GenericShape subject (PDict m) region).
Proof.
  intros Hdec.
  assert (Hrun : forall s, shape_of_keys m = s ->
             classify (PDict m) = inr s
             /\ notify_slack_payload float_repr json_loads env subject message
                  region = branch float_repr env s subject (PDict m) region).
  { intros s <-. split; [apply classify_dict|].
    rewrite notify_slack_payload_branch, Hdec. cbn [bind Monad_either].
    now rewrite classify_dict. }
  unfold shape_of_keys in Hrun.
  split; [|split; [|split]].
  - intros Ha. apply Hrun. now rewrite Ha.
  - intros Ha Hf. apply Hrun. now rewrite Ha, Hf.
  - intros Ha Hf Hp. apply Hrun. rewrite Ha, Hf.
    destruct Hp as [-> | ->]; [reflexivity|].
    now rewrite orb_true_r.
  - intros Ha Hf Hp Ht. apply Hrun. now rewrite Ha, Hf, Hp, Ht.
Qed.

(** An alarm that also has [text], [attachments] and a GuardDuty
    [detail-type] is posted as an alarm; a finding that also has
    [attachments] is posted as a finding. *)
Lemma dispatch_priority_witness :
  notify_slack_payload Sample.float_repr Sample.json_loads Sample.env PNone
    (PDict (Sample.alarm ++
            [("text", PStr "hi"); ("attachments", PList []);
             ("detail-type", PStr "GuardDuty Finding")]))
    (PStr "us-east-1") =
  inr [("channel", PStr "#ops");
       ("username", PStr "aws-bot");
       ("icon_emoji", PStr ":aws:");
       ("attachments",
        PList [alarm_attachment
                 {| ap_name := "cpu-high";
                    ap_description := PStr "CPU above 90%";
                    ap_reason := PStr "Threshold Crossed";
                    ap_old_state := PStr "OK";
                    ap_new_state := PStr "ALARM" |} "us-east-1" "danger"]);
       ("text", PStr "[prod] AWS CloudWatch notification - cpu-high")]
  /\ notify_slack_payload Sample.float_repr Sample.json_loads Sample.env PNone
       (PDict (Sample.finding ++ [("attachments", PList [])]))
       (PStr "us-east-1") =
     inr [("channel", PStr "#ops");
          ("username", PStr "aws-bot");
          ("icon_emoji", PStr ":aws:");
          ("attachments",
           PList [finding_attachment Sample.float_repr
                    (sample_parts (PFloat Sample.f8_5))
                    "us-gov-west-1" "High" "danger"]);
          ("text", PStr "[prod] Amazon GuardDuty Finding - Unusual API call")].
Proof.
  split.
  - rewrite (proj2 (proj1 (dispatch_priority Sample.float_repr
                             Sample.json_loads Sample.env PNone
                             (PDict (Sample.alarm ++
                                     [("text", PStr "hi");
                                      ("attachments", PList []);
                                      ("detail-type", PStr "GuardDuty Finding")]))
                             (PStr "us-east-1") _ eq_refl) eq_refl)).
    vm_compute. reflexivity.
  - rewrite (proj2 (proj1 (proj2 (dispatch_priority Sample.float_repr
                             Sample.json_loads Sample.env PNone
                             (PDict (Sample.finding ++
                                     [("attachments", PList [])]))
                             (PStr "us-east-1") _ eq_refl)) eq_refl eq_refl)).
    vm_compute. reflexivity.
Defined.

(** ** The assembled envelope *)

Lemma append_not_empty (a b : string) :
  b <> EmptyString -> a ++ b <> EmptyString.
Proof. destruct a; simpl; [auto|discriminate]. Qed.

Lemma append_not_empty_l (a b : string) :
  a <> EmptyString -> a ++ b <> EmptyString.
Proof. destruct a; simpl; [congruence|discriminate]. Qed.

(** The payload of the three branches that set a text and append an
    attachment. *)
Lemma one_attachment (env : environ) (text : string) (att : pyval) :
  text <> EmptyString ->
  let p := append_attachment
             (Dict.set "text" (PStr text) (base_payload env)) att in
  (exists t, Dict.get "text" p = Some (PStr t) /\ t <> EmptyString)
  /\ exists a, Dict.get "attachments" p = Some (PList [a]).
Proof.
  intros Htext. cbv zeta. split.
  - exists text. split; [reflexivity|exact Htext].
  - exists att. reflexivity.
Qed.

(** A message with [attachments] and no [text] is posted without a text. *)
Lemma envelope_invariant_counterexample :
  ~ (forall (float_repr : spec_float -> string)
            (json_loads : string -> py pyval) (env : environ)
            (subject message region : pyval) (m p : dict),
        decode json_loads message = inr (PDict m) ->
        notify_slack_payload float_repr json_loads env subject message region
        = inr p ->
        envelope_invariant_as_stated m p).
Proof.
  intros H.
  destruct (H Sample.float_repr Sample.json_loads Sample.env PNone
              (PDict [("attachments", PList [])]) (PStr "us-east-1")
              [("attachments", PList [])]
              [("channel", PStr "#ops"); ("username", PStr "aws-bot");
               ("icon_emoji", PStr ":aws:"); ("attachments", PList [])]
              eq_refl eq_refl) as [(t & Ht & _) _].
  discriminate Ht.
Qed.

(** C9, amended. When [notify_slack] assembles a payload in the alarm,
    finding or generic branch, its text is a string that is not empty and
    its attachments are a list of one; in the pre-formatted branch the
    payload is the base payload with the message merged over it, so that
    text and attachments are those of the message when it has them, the
    text is missing when the message has none, and the attachments are the
    empty list when the message has none. *)
Theorem envelope_invariant
    (float_repr : spec_float -> string) (json_loads : string -> py pyval)
    (env : environ) (subject message region : pyval) (p : dict) :
  notify_slack_payload float_repr json_loads env subject message region = inr p ->
  exists (msg : pyval) (s : shape),
    decode json_loads message = inr msg
    /\ classify msg = inr s
    /\ match s with
       | PreformattedShape =>
           exists m : dict,
             msg = PDict m
             /\ p = Dict.merge (base_payload env) m
             /\ (NoDup (Dict.keys m) ->
                 Dict.get "text" p = Dict.get "text" m
                 /\ (forall l, Dict.get "attachments" m = Some l ->
                               Dict.get "attachments" p = Some l)
                 /\ (Dict.get "attachments" m = None ->
                     Dict.get "attachments" p = Some (PList [])))
       | _ =>
           (exists t, Dict.get "text" p = Some (PStr t) /\ t <> EmptyString)
           /\ exists a, Dict.get "attachments" p = Some (PList [a])
       end.
Proof.
  intros Hrun. rewrite notify_slack_payload_branch in Hrun.
  destruct (decode json_loads message) as [e|msg]; [discriminate Hrun|].
  cbn [bind Monad_either] in Hrun.
  destruct (classify msg) as [e|s] eqn:Hshape; [discriminate Hrun|].
  cbn [bind Monad_either] in Hrun.
  exists msg, s. split; [reflexivity|split; [exact Hshape|]].
  clear Hshape.
  destruct s; unfold branch in Hrun.
  - destruct (cloudwatch_notification float_repr msg region) as [e|att];
      [discriminate Hrun|].
    cbn [bind Monad_either] in Hrun.
    destruct (py_getitem msg "AlarmName") as [e|name]; [discriminate Hrun|].
    destruct name; try discriminate Hrun.
    cbn [py_add_str bind ret Monad_either] in Hrun.
    injection Hrun as <-. apply one_attachment.
    apply append_not_empty_l, append_not_empty. discriminate.
  - destruct (py_getitem msg "region") as [e|r]; [discriminate Hrun|].
    cbn [bind Monad_either] in Hrun.
    destruct (guardduty_finding float_repr msg r) as [e|att];
      [discriminate Hrun|].
    cbn [bind Monad_either] in Hrun.
    destruct (py_getitem msg "detail") as [e|detail]; [discriminate Hrun|].
    cbn [bind Monad_either] in Hrun.
    destruct (py_getitem detail "title") as [e|title]; [discriminate Hrun|].
    destruct title; try discriminate Hrun.
    cbn [py_add_str bind ret Monad_either] in Hrun.
    injection Hrun as <-. apply one_attachment.
    apply append_not_empty_l, append_not_empty. discriminate.
  - destruct msg; try discriminate Hrun.
    cbn [py_merge ret Monad_either] in Hrun. injection Hrun as <-.
    exists d. split; [reflexivity|split; [reflexivity|]].
    intros Hnd. split; [|split].
    + rewrite (DictFacts.get_merge "text" d Hnd).
      destruct (Dict.get "text" d); reflexivity.
    + intros l Hl. rewrite (DictFacts.get_merge "attachments" d Hnd).
      now rewrite Hl.
    + intros Hl. rewrite (DictFacts.get_merge "attachments" d Hnd).
      now rewrite Hl.
  - cbn [ret Monad_either] in Hrun. injection Hrun as <-.
    apply one_attachment. apply append_not_empty. discriminate.
Qed.

(** The text [Hello world] with the subject [Test] gives the generic
    payload: a text and one attachment. *)
Lemma envelope_invariant_witness :
  exists p : dict,
    notify_slack_payload Sample.float_repr Sample.json_loads Sample.env
      (PStr "Test") (PStr "Hello world") (PStr "us-east-1") = inr p
    /\ (exists t, Dict.get "text" p = Some (PStr t) /\ t <> EmptyString)
    /\ exists a, Dict.get "attachments" p = Some (PList [a]).
Proof.
  eexists. split; [reflexivity|].
  destruct (envelope_invariant Sample.float_repr Sample.json_loads Sample.env
              (PStr "Test") (PStr "Hello world") (PStr "us-east-1") _ eq_refl)
    as (msg & s & Hdec & Hshape & Hinv).
  injection Hdec as <-. injection Hshape as <-. exact Hinv.
Defined.

(** ** Messages that are not mappings *)

(** C1, at the text [42]: it decodes to the int 42, on which the first
    test of the chain, ["AlarmName" in message], raises [TypeError]; no
    shape is chosen and [notify_slack] does not return.  The same holds for
    every text that decodes to [None], a bool, an int or a float. *)
Theorem classification_raises_on_scalar
    (float_repr : spec_float -> string) (json_loads : string -> py pyval)
    (env : environ) (subject region : pyval) (text : string) (v : pyval) :
  json_loads text = inr v ->
  v = PNone \/ (exists b, v = PBool b) \/ (exists z, v = PInt z)
  \/ (exists f, v = PFloat f) ->
  classify v = inl TypeError
  /\ notify_slack_payload float_repr json_loads env subject (PStr text) region
     = inl TypeError.
Proof.
  intros Hdec Hv.
  assert (Hshape : classify v = inl TypeError).
  { destruct Hv as [->|[[b ->]|[[z ->]|[f ->]]]]; reflexivity. }
  split; [exact Hshape|].
  rewrite notify_slack_payload_branch. unfold decode, catch, Exception_either.
  rewrite Hdec. cbn [bind Monad_either]. now rewrite Hshape.
Qed.

Lemma classification_raises_on_scalar_witness :
  classify (PInt 42) = inl TypeError
  /\ notify_slack_payload Sample.float_repr Sample.json_loads Sample.env PNone
       (PStr "42") (PStr "us-east-1") = inl TypeError.
Proof.
  apply (classification_raises_on_scalar Sample.float_repr Sample.json_loads
           Sample.env PNone (PStr "us-east-1") "42" (PInt 42)).
  - reflexivity.
  - right. right. left. exists 42%Z. reflexivity.
Defined.

(** C7, what the code does with a text that does not decode: when the text
    contains none of [AlarmName], [detail-type], [attachments] and [text],
    it is posted as a generic notification with the text as its one field;
    when it contains one of them, the test of that key succeeds on the
    substring, the branch of that key runs on the string, and
    [notify_slack] raises [TypeError]. *)
Theorem undecodable_text
    (float_repr : spec_float -> string) (json_loads : string -> py pyval)
    (env : environ) (subject : pyval) (region text : string) :
  json_loads text = inl JSONDecodeError ->
  (names_shape_key text = false ->
   notify_slack_payload float_repr json_loads env subject (PStr text)
     (PStr region) =
   inr [("channel", PStr (SLACK_CHANNEL env));
        ("username", PStr (SLACK_USERNAME env));
        ("icon_emoji", PStr (SLACK_EMOJI env));
        ("attachments",
         PList [PDict [("fallback", PStr "A new message");
                       ("title", if py_truthy subject then subject
                                 else PStr "Message");
                       ("mrkdwn_in", PList [PStr "value"]);
                       ("fields",
                        PList [PDict [("value", PStr text);
                                      ("short", PBool false)]])]]);
        ("text", PStr (prefix_of env ++ "AWS notification"))])
  /\ (names_shape_key text = true ->
      notify_slack_payload float_repr json_loads env subject (PStr text)
        (PStr region) = inl TypeError).
Proof.
  intros Hdec. unfold names_shape_key.
  rewrite notify_slack_payload_branch. unfold decode, catch, Exception_either.
  rewrite Hdec. cbn [bind ret Monad_either].
  unfold classify, py_in. cbn [bind ret Monad_either].
  destruct (str_contains "AlarmName" text).
  { split; [discriminate|reflexivity]. }
  destruct (str_contains "detail-type" text).
  { split; [discriminate|reflexivity]. }
  cbn [bind ret Monad_either].
  destruct (str_contains "attachments" text).
  { split; [discriminate|reflexivity]. }
  cbn [bind ret Monad_either].
  destruct (str_contains "text" text).
  { split; [discriminate|reflexivity]. }
  split; [reflexivity|discriminate].
Qed.

(** [Hello world] is posted; [Disk usage alert: see attachments] raises. *)
Lemma undecodable_text_witness :
  notify_slack_payload Sample.float_repr Sample.json_loads Sample.env
    (PStr "Test") (PStr "Hello world") (PStr "us-east-1") =
  inr [("channel", PStr "#ops");
       ("username", PStr "aws-bot");
       ("icon_emoji", PStr ":aws:");
       ("attachments",
        PList [PDict [("fallback", PStr "A new message");
                      ("title", PStr "Test");
                      ("mrkdwn_in", PList [PStr "value"]);
                      ("fields",
                       PList [PDict [("value", PStr "Hello world");
                                     ("short", PBool false)]])]]);
       ("text", PStr "[prod] AWS notification")]
  /\ notify_slack_payload Sample.float_repr Sample.json_loads Sample.env
       (PStr "Test") (PStr "Disk usage alert: see attachments")
       (PStr "us-east-1") = inl TypeError.
Proof.
  split.
  - apply (proj1 (undecodable_text Sample.float_repr Sample.json_loads
                    Sample.env (PStr "Test") "us-east-1" "Hello world"
                    eq_refl)).
    reflexivity.
  - apply (proj2 (undecodable_text Sample.float_repr Sample.json_loads
                    Sample.env (PStr "Test") "us-east-1"
                    "Disk usage alert: see attachments" eq_refl)).
    reflexivity.
Defined.

(** * Further properties *)

(** ** When the attachment functions return *)


(** X2. [guardduty_finding] returns an attachment exactly for a mapping
    whose detail has the parts it reads, with a numeric score and a string
    as the id, and a region that is a string; the attachment is then the
    one of those parts, with the label and the colour of the score. *)
Theorem guardduty_finding_returns_iff
    (float_repr : spec_float -> string) (message region att : pyval) :
  guardduty_finding float_repr message region = inr att <->
  exists (m : dict) (p : finding_parts) (r severity color : string),
    message = PDict m /\ region = PStr r
    /\ finding_message m p
    /\ severity_of (fp_score p) = inr severity
    /\ find (fun kv => String.eqb severity (fst kv)) finding_states
       = Some (severity, color)
    /\ att = finding_attachment float_repr p r severity color.
Proof.
  split.
  - intros Hrun.
    destruct region as [| | | |r| |]; try discriminate Hrun.
    destruct message as [| | | | | |m]; try discriminate Hrun.
    unfold guardduty_finding, py_startswith in Hrun.
    cbn [bind ret Monad_either py_getitem] in Hrun.
    destruct (Dict.get "detail" m) as [detail|] eqn:Hdetail;
      [|discriminate Hrun].
    destruct detail as [| | | | | |detail]; try discriminate Hrun.
    cbn [bind ret Monad_either py_getitem] in Hrun.
    destruct (Dict.get "severity" detail) as [score|] eqn:Hscore;
      [|discriminate Hrun].
    cbn [bind ret Monad_either] in Hrun.
    destruct (severity_of score) as [e|severity] eqn:Hsev;
      [discriminate Hrun|].
    cbn [bind ret Monad_either] in Hrun.
    assert (Hcolor : exists color,
               find (fun kv => String.eqb severity (fst kv)) finding_states
               = Some (severity, color)).
    { destruct (severity_of_label _ _ Hsev) as [->|[->| ->]];
        eexists; reflexivity. }
    destruct Hcolor as [color Hcolor].
    unfold py_lookup in Hrun. rewrite Hcolor in Hrun.
    cbn [snd bind ret Monad_either] in Hrun.
    destruct (Dict.get "title" detail) as [title|] eqn:Htitle;
      [|discriminate Hrun].
    cbn [bind ret Monad_either] in Hrun.
    destruct (Dict.get "description" detail) as [description|] eqn:Hdesc;
      [|discriminate Hrun].
    cbn [bind ret Monad_either] in Hrun.
    destruct (Dict.get "type" detail) as [type|] eqn:Htype;
      [|discriminate Hrun].
    cbn [bind ret Monad_either] in Hrun.
    destruct (Dict.get "service" detail) as [service|] eqn:Hservice;
      [|discriminate Hrun].
    destruct service as [| | | | | |service]; try discriminate Hrun.
    cbn [bind ret Monad_either py_getitem] in Hrun.
    destruct (Dict.get "eventFirstSeen" service) as [first_seen|] eqn:Hfirst;
      [|discriminate Hrun].
    cbn [bind ret Monad_either] in Hrun.
    destruct (Dict.get "eventLastSeen" service) as [last_seen|] eqn:Hlast;
      [|discriminate Hrun].
    cbn [bind ret Monad_either] in Hrun.
    destruct (Dict.get "count" service) as [count|] eqn:Hcount;
      [|discriminate Hrun].
    cbn [bind ret Monad_either py_add_str] in Hrun.
    destruct (Dict.get "id" detail) as [id|] eqn:Hid; [|discriminate Hrun].
    destruct id as [| | | |id| |]; try discriminate Hrun.
    cbn [bind ret Monad_either py_add_str] in Hrun.
    exists m,
      {| fp_score := score; fp_title := title; fp_description := description;
         fp_type := type; fp_first_seen := first_seen;
         fp_last_seen := last_seen; fp_count := count; fp_id := id |},
      r, severity, color.
    split; [reflexivity|]. split; [reflexivity|].
    split; [exists detail, service; repeat split; assumption|].
    split; [exact Hsev|]. split; [exact Hcolor|].
    injection Hrun as <-.
    unfold finding_attachment, console_host. cbn [fp_score fp_title
      fp_description fp_type fp_first_seen fp_last_seen fp_count fp_id].
    destruct (startswith r "us-gov-"); rewrite !append_assoc; reflexivity.
  - intros (m & p & r & severity & color & -> & -> & Hm & Hsev & Hcolor & ->).
    destruct (guardduty_finding_complete float_repr m p r severity Hm Hsev)
      as (color' & Hcolor' & Hrun).
    rewrite Hcolor in Hcolor'. injection Hcolor' as <-. exact Hrun.
Qed.

(** ** What the attachment functions raise *)

(** X3. For a mapping and a string region, [cloudwatch_notification]
    raises [KeyError: 'NewStateValue'] when that key is missing, whatever
    else is there; with a state of the table it raises the [KeyError] of
    the first key missing among AlarmName, AlarmDescription,
    NewStateReason and OldStateValue; with all keys there and an alarm
    name that is not a string it raises [TypeError]. *)
Theorem cloudwatch_notification_errors
    (float_repr : spec_float -> string) (m : dict) (r : string) :
  (Dict.get "NewStateValue" m = None ->
   cloudwatch_notification float_repr (PDict m) (PStr r) =
   inl (KeyError (PStr "NewStateValue")))
  /\ (forall (v : pyval) (k : string),
         Dict.get "NewStateValue" m = Some v ->
         known_state v ->
         first_absent ["AlarmName"; "AlarmDescription"; "NewStateReason";
                       "OldStateValue"] m = Some k ->
         cloudwatch_notification float_repr (PDict m) (PStr r) =
         inl (KeyError (PStr k)))
  /\ (forall v name : pyval,
         Dict.get "NewStateValue" m = Some v ->
         known_state v ->
         first_absent ["AlarmName"; "AlarmDescription"; "NewStateReason";
                       "OldStateValue"] m = None ->
         Dict.get "AlarmName" m = Some name ->
         (forall s, name <> PStr s) ->
         cloudwatch_notification float_repr (PDict m) (PStr r) =
         inl TypeError).
Proof.
  assert (Hcolor : forall v, known_state v ->
             exists c, py_lookup alarm_states v = inr c).
  { intros v [->|[->| ->]]; eexists; reflexivity. }
  split; [|split].
  - intros Hnew. unfold cloudwatch_notification, py_startswith, py_getitem.
    cbn [bind ret Monad_either]. now rewrite Hnew.
  - intros v k Hnew Hv Habsent. destruct (Hcolor v Hv) as [c Hc].
    unfold cloudwatch_notification, py_startswith, py_getitem.
    cbn [bind ret Monad_either]. rewrite Hnew.
    cbn [bind ret Monad_either]. rewrite Hc. cbn [bind ret Monad_either].
    unfold first_absent, Dict.mem in Habsent. cbn [find] in Habsent.
    destruct (Dict.get "AlarmName" m);
      [|injection Habsent as <-; reflexivity].
    destruct (Dict.get "AlarmDescription" m);
      [|injection Habsent as <-; reflexivity].
    destruct (Dict.get "NewStateReason" m);
      [|injection Habsent as <-; reflexivity].
    destruct (Dict.get "OldStateValue" m);
      [discriminate Habsent|injection Habsent as <-; reflexivity].
  - intros v name Hnew Hv Habsent Hname Hnot. destruct (Hcolor v Hv) as [c Hc].
    unfold cloudwatch_notification, py_startswith, py_getitem.
    cbn [bind ret Monad_either]. rewrite Hnew.
    cbn [bind ret Monad_either]. rewrite Hc. cbn [bind ret Monad_either].
    unfold first_absent, Dict.mem in Habsent. cbn [find] in Habsent.
    rewrite Hname in Habsent |- *.
    destruct (Dict.get "AlarmDescription" m); [|discriminate Habsent].
    destruct (Dict.get "NewStateReason" m); [|discriminate Habsent].
    destruct (Dict.get "OldStateValue" m); [|discriminate Habsent].
    cbn [bind ret Monad_either py_add_str].
    destruct name; try reflexivity. now elim (Hnot s).
Qed.

(** An alarm without a description raises [KeyError: 'AlarmDescription'];
    with the number 7 as its name, [TypeError]. *)
Lemma cloudwatch_notification_errors_witness :
  cloudwatch_notification Sample.float_repr
    (PDict [("AlarmName", PStr "cpu-high"); ("NewStateValue", PStr "OK")])
    (PStr "us-east-1") = inl (KeyError (PStr "AlarmDescription"))
  /\ cloudwatch_notification Sample.float_repr
       (PDict [("AlarmName", PInt 7); ("AlarmDescription", PNone);
               ("NewStateReason", PNone); ("OldStateValue", PNone);
               ("NewStateValue", PStr "OK")])
       (PStr "us-east-1") = inl TypeError
  /\ cloudwatch_notification Sample.float_repr
       (PDict [("AlarmName", PStr "cpu-high")]) (PStr "us-east-1")
     = inl (KeyError (PStr "NewStateValue")).
Proof.
  split; [|split].
  - apply (proj1 (proj2 (cloudwatch_notification_errors Sample.float_repr
                           [("AlarmName", PStr "cpu-high");
                            ("NewStateValue", PStr "OK")] "us-east-1"))
             (PStr "OK")).
    + reflexivity.
    + left. reflexivity.
    + reflexivity.
  - apply (proj2 (proj2 (cloudwatch_notification_errors Sample.float_repr
                           [("AlarmName", PInt 7); ("AlarmDescription", PNone);
                            ("NewStateReason", PNone); ("OldStateValue", PNone);
                            ("NewStateValue", PStr "OK")] "us-east-1"))
             (PStr "OK") (PInt 7)).
    + reflexivity.
    + left. reflexivity.
    + reflexivity.
    + reflexivity.
    + intros s. discriminate.
  - apply (proj1 (cloudwatch_notification_errors Sample.float_repr
                    [("AlarmName", PStr "cpu-high")] "us-east-1")).
    reflexivity.
Defined.

(** X4. For a mapping and a string region, [guardduty_finding] raises
    [KeyError: 'detail'] when the detail is missing and [TypeError] when it
    is not a mapping; with a detail, [KeyError: 'severity'] when the score
    is missing and [TypeError] when the score is not a number (a string
    such as ["8.5"], [None], a list or a mapping). *)
Theorem guardduty_finding_errors
    (float_repr : spec_float -> string) (m : dict) (r : string) :
  (Dict.get "detail" m = None ->
   guardduty_finding float_repr (PDict m) (PStr r) =
   inl (KeyError (PStr "detail")))
  /\ (forall v : pyval,
         Dict.get "detail" m = Some v ->
         (forall d, v <> PDict d) ->
         guardduty_finding float_repr (PDict m) (PStr r) = inl TypeError)
  /\ (forall detail : dict,
         Dict.get "detail" m = Some (PDict detail) ->
         Dict.get "severity" detail = None ->
         guardduty_finding float_repr (PDict m) (PStr r) =
         inl (KeyError (PStr "severity")))
  /\ (forall (detail : dict) (score : pyval),
         Dict.get "detail" m = Some (PDict detail) ->
         Dict.get "severity" detail = Some score ->
         is_number score = false ->
         guardduty_finding float_repr (PDict m) (PStr r) = inl TypeError).
Proof.
  split; [|split; [|split]].
  - intros Hd. unfold guardduty_finding, py_startswith, py_getitem.
    cbn [bind ret Monad_either]. now rewrite Hd.
  - intros v Hd Hnot. unfold guardduty_finding, py_startswith.
    cbn [bind ret Monad_either py_getitem]. rewrite Hd.
    cbn [bind ret Monad_either].
    destruct v; try reflexivity. now elim (Hnot d).
  - intros detail Hd Hs. unfold guardduty_finding, py_startswith.
    cbn [bind ret Monad_either py_getitem]. rewrite Hd.
    cbn [bind ret Monad_either py_getitem]. now rewrite Hs.
  - intros detail score Hd Hs Hnum. unfold guardduty_finding, py_startswith.
    cbn [bind ret Monad_either py_getitem]. rewrite Hd.
    cbn [bind ret Monad_either py_getitem]. rewrite Hs.
    cbn [bind ret Monad_either].
    destruct score; try discriminate Hnum; reflexivity.
Qed.

(** The sample finding with the string ["8.5"] as its score. *)
Lemma guardduty_finding_errors_witness :
  guardduty_finding Sample.float_repr
    (PDict (Sample.finding_with (PStr "8.5"))) (PStr "us-east-1")
  = inl TypeError
  /\ guardduty_finding Sample.float_repr
       (PDict [("detail-type", PStr "GuardDuty Finding")]) (PStr "us-east-1")
     = inl (KeyError (PStr "detail")).
Proof.
  split.
  - apply (proj2 (proj2 (proj2 (guardduty_finding_errors Sample.float_repr
                                  (Sample.finding_with (PStr "8.5"))
                                  "us-east-1")))
             _ (PStr "8.5") eq_refl eq_refl eq_refl).
  - apply (proj1 (guardduty_finding_errors Sample.float_repr
                    [("detail-type", PStr "GuardDuty Finding")] "us-east-1")).
    reflexivity.
Defined.

(** ** Severity is monotone *)

Module FloatOrder.

(** The IEEE comparison is transitive from [<=] and [<] to [<]. *)
Lemma SFleb_SFltb_trans (a b c : spec_float) :
  SFleb a b = true -> SFltb b c = true -> SFltb a c = true.
Proof.
  unfold SFleb, SFltb, SFcompare.
  destruct a as [sa|sa| |sa ma ea], b as [sb|sb| |sb mb eb],
           c as [sc|sc| |sc mc ec];
    try (intros H; discriminate H);
    try (intros _ H; discriminate H);
    try destruct sa; try destruct sb; try destruct sc;
    try (intros H; discriminate H);
    try (intros _ H; discriminate H);
    try reflexivity;
    rewrite ?Pos.compare_cont_spec; cbn [Pos.switch_Eq];
    repeat match goal with
           | |- context [Z.compare ?x ?y] => destruct (Z.compare_spec x y)
           end;
    repeat match goal with
           | |- context [Pos.compare ?x ?y] => destruct (Pos.compare_spec x y)
           end;
    cbn [CompOpp Pos.switch_Eq];
    try (intros H; discriminate H);
    try (intros _ H; discriminate H);
    try reflexivity; try lia.
Qed.

End FloatOrder.

(** X5. The severity does not go down when the score goes up: for two
    ints, and for two floats in the IEEE order, the label of the smaller
    score has at most the rank of the label of the larger (Low, Medium,
    High).  Every number gets a label, a float that is not a number (NaN)
    the label High; every other value raises [TypeError]. *)
Theorem severity_monotone :
  (forall (z1 z2 : Z) (a b : string),
      (z1 <= z2)%Z ->
      severity_of (PInt z1) = inr a -> severity_of (PInt z2) = inr b ->
      rank a <= rank b)
  /\ (forall (f1 f2 : spec_float) (a b : string),
         SFleb f1 f2 = true ->
         severity_of (PFloat f1) = inr a -> severity_of (PFloat f2) = inr b ->
         rank a <= rank b)
  /\ (forall s : pyval, is_number s = true ->
                        exists a, severity_of s = inr a)
  /\ severity_of (PFloat S754_nan) = inr "High"
  /\ (forall s : pyval, is_number s = false ->
                        severity_of s = inl TypeError).
Proof.
  split; [|split; [|split; [|split]]].
  - intros z1 z2 a b Hle. unfold severity_of, py_lt_float.
    cbn [bind ret Monad_either].
    rewrite !FloatFacts.Z_ltb_float_4, !FloatFacts.Z_ltb_float_7.
    destruct (Z.ltb_spec z1 4), (Z.ltb_spec z2 4);
      cbn [bind ret Monad_either];
      try destruct (Z.ltb_spec z1 7); try destruct (Z.ltb_spec z2 7);
      intros Ha Hb; injection Ha as <-; injection Hb as <-;
      try (vm_compute; lia); lia.
  - intros f1 f2 a b Hle. unfold severity_of, py_lt_float.
    cbn [bind ret Monad_either].
    destruct (SFltb f2 f4_0) eqn:H24.
    { rewrite (FloatOrder.SFleb_SFltb_trans _ _ _ Hle H24).
      intros Ha Hb; injection Ha as <-; injection Hb as <-. reflexivity. }
    cbn [bind ret Monad_either].
    destruct (SFltb f2 f7_0) eqn:H27.
    { rewrite (FloatOrder.SFleb_SFltb_trans _ _ _ Hle H27).
      destruct (SFltb f1 f4_0); cbn [bind ret Monad_either];
        intros Ha Hb; injection Ha as <-; injection Hb as <-;
        vm_compute; lia. }
    destruct (SFltb f1 f4_0); cbn [bind ret Monad_either];
      [|destruct (SFltb f1 f7_0)];
      intros Ha Hb; injection Ha as <-; injection Hb as <-;
      vm_compute; lia.
  - intros s Hs. unfold severity_of.
    destruct s; try discriminate Hs; unfold py_lt_float;
      cbn [bind ret Monad_either];
      match goal with
      | |- context [if ?c then _ else _] => destruct c
      end; cbn [bind ret Monad_either]; eauto;
      match goal with
      | |- context [if ?c then _ else _] => destruct c
      end; eauto.
  - reflexivity.
  - intros s Hs. destruct s; try discriminate Hs; reflexivity.
Qed.

(** The scores 3, 5 and 9, and the floats 3.9 and 8.5. *)
Lemma severity_monotone_witness :
  rank "Low" <= rank "Medium" /\ rank "Low" <= rank "High"
  /\ severity_of (PStr "8.5") = inl TypeError.
Proof.
  split; [|split].
  - apply (proj1 severity_monotone 3%Z 5%Z "Low" "Medium");
      [lia|reflexivity|reflexivity].
  - apply (proj1 (proj2 severity_monotone) Sample.f3_9 Sample.f8_5
             "Low" "High"); vm_compute; reflexivity.
  - apply (proj2 (proj2 (proj2 (proj2 severity_monotone)))). reflexivity.
Defined.

(** ** The payload of the dispatcher *)

(** X6. An alarm with all its parts and a state of the table is posted
    with the text prefix, [AWS CloudWatch notification - ] and the alarm
    name, and with its attachment as the only one, whether the message
    came as a mapping or as a text that decodes to it. *)
Theorem alarm_payload
    (float_repr : spec_float -> string) (json_loads : string -> py pyval)
    (env : environ) (subject message : pyval) (m : dict) (p : alarm_parts)
    (region state color : string) :
  decode json_loads message = inr (PDict m) ->
  alarm_message m p ->
  ap_new_state p = PStr state ->
  find (fun kv => String.eqb state (fst kv)) alarm_states = Some (state, color) ->
  notify_slack_payload float_repr json_loads env subject message (PStr region) =
  inr [("channel", PStr (SLACK_CHANNEL env));
       ("username", PStr (SLACK_USERNAME env));
       ("icon_emoji", PStr (SLACK_EMOJI env));
       ("attachments", PList [alarm_attachment p region color]);
       ("text", PStr (prefix_of env ++ "AWS CloudWatch notification - "
                      ++ ap_name p))].
Proof.
  intros Hdec Hm Hstate Hcolor.
  rewrite notify_slack_payload_branch, Hdec. cbn [bind Monad_either].
  rewrite classify_dict. cbn [bind Monad_either].
  pose proof Hm as (Hname & _).
  unfold shape_of_keys, Dict.mem. rewrite Hname. unfold branch.
  rewrite (cloudwatch_notification_complete float_repr m p region state color
             Hm Hstate Hcolor).
  unfold py_getitem. rewrite Hname.
  cbn [bind ret Monad_either py_add_str].
  rewrite append_assoc. reflexivity.
Qed.

(** The sample alarm as a mapping, with the environment name [prod]. *)
Lemma alarm_payload_witness :
  notify_slack_payload Sample.float_repr Sample.json_loads Sample.env PNone
    (PDict Sample.alarm) (PStr "us-east-1") =
  inr [("channel", PStr "#ops");
       ("username", PStr "aws-bot");
       ("icon_emoji", PStr ":aws:");
       ("attachments",
        PList [alarm_attachment
                 {| ap_name := "cpu-high";
                    ap_description := PStr "CPU above 90%";
                    ap_reason := PStr "Threshold Crossed";
                    ap_old_state := PStr "OK";
                    ap_new_state := PStr "ALARM" |} "us-east-1" "danger"]);
       ("text", PStr "[prod] AWS CloudWatch notification - cpu-high")].
Proof.
  apply (alarm_payload Sample.float_repr Sample.json_loads Sample.env PNone
           (PDict Sample.alarm) Sample.alarm
           {| ap_name := "cpu-high";
              ap_description := PStr "CPU above 90%";
              ap_reason := PStr "Threshold Crossed";
              ap_old_state := PStr "OK";
              ap_new_state := PStr "ALARM" |}
           "us-east-1" "ALARM" "danger").
  - reflexivity.
  - repeat split; reflexivity.
  - reflexivity.
  - reflexivity.
Defined.

(** X7. A payload of the alarm, finding or generic branch has exactly the
    keys channel, username, icon_emoji, attachments and text, in this
    order; channel, username and icon are those of the environment, there
    is one attachment, and the text starts with the prefix, which is empty
    without an environment name and the name between brackets and a space
    with one. *)
Theorem payload_frame
    (float_repr : spec_float -> string) (json_loads : string -> py pyval)
    (env : environ) (subject message region msg : pyval) (s : shape)
    (p : dict) :
  notify_slack_payload float_repr json_loads env subject message region = inr p ->
  decode json_loads message = inr msg ->
  classify msg = inr s ->
  s <> PreformattedShape ->
  (exists (att : pyval) (rest : string),
      p = [("channel", PStr (SLACK_CHANNEL env));
           ("username", PStr (SLACK_USERNAME env));
           ("icon_emoji", PStr (SLACK_EMOJI env));
           ("attachments", PList [att]);
           ("text", PStr (prefix_of env ++ rest))])
  /\ (ENVIRONMENT_NAME env = EmptyString -> prefix_of env = EmptyString)
  /\ (ENVIRONMENT_NAME env <> EmptyString ->
      prefix_of env = "[" ++ ENVIRONMENT_NAME env ++ "] ").
Proof.
  intros Hrun Hdec Hshape Hs.
  split; [|split].
  - rewrite notify_slack_payload_branch, Hdec in Hrun.
    cbn [bind Monad_either] in Hrun. rewrite Hshape in Hrun.
    cbn [bind Monad_either] in Hrun.
    destruct s; [| |now elim Hs|]; unfold branch in Hrun.
    + destruct (cloudwatch_notification float_repr msg region) as [e|att];
        [discriminate Hrun|].
      cbn [bind Monad_either] in Hrun.
      destruct (py_getitem msg "AlarmName") as [e|name]; [discriminate Hrun|].
      destruct name; try discriminate Hrun.
      cbn [py_add_str bind ret Monad_either] in Hrun.
      injection Hrun as <-. eexists att, _.
      rewrite append_assoc. reflexivity.
    + destruct (py_getitem msg "region") as [e|r]; [discriminate Hrun|].
      cbn [bind Monad_either] in Hrun.
      destruct (guardduty_finding float_repr msg r) as [e|att];
        [discriminate Hrun|].
      cbn [bind Monad_either] in Hrun.
      destruct (py_getitem msg "detail") as [e|detail]; [discriminate Hrun|].
      cbn [bind Monad_either] in Hrun.
      destruct (py_getitem detail "title") as [e|title]; [discriminate Hrun|].
      destruct title; try discriminate Hrun.
      cbn [py_add_str bind ret Monad_either] in Hrun.
      injection Hrun as <-. eexists att, _.
      rewrite append_assoc. reflexivity.
    + cbn [ret Monad_either] in Hrun. injection Hrun as <-.
      eexists _, _. reflexivity.
  - intros Hname. unfold prefix_of. now rewrite Hname.
  - intros Hname. unfold prefix_of.
    apply String.eqb_neq in Hname. now rewrite Hname.
Qed.

(** The text [Hello world], with and without an environment name. *)
Lemma payload_frame_witness :
  (exists (att : pyval) (rest : string),
      [("channel", PStr "#ops"); ("username", PStr "aws-bot");
       ("icon_emoji", PStr ":aws:");
       ("attachments",
        PList [default_notification Sample.float_repr PNone
                 (PStr "Hello world")]);
       ("text", PStr "[prod] AWS notification")]
      = [("channel", PStr "#ops"); ("username", PStr "aws-bot");
         ("icon_emoji", PStr ":aws:"); ("attachments", PList [att]);
         ("text", PStr (prefix_of Sample.env ++ rest))])
  /\ prefix_of Sample.env = "[prod] ".
Proof.
  destruct (payload_frame Sample.float_repr Sample.json_loads Sample.env PNone
              (PStr "Hello world") (PStr "us-east-1") (PStr "Hello world")
              GenericShape _ eq_refl eq_refl eq_refl)
    as (Hp & _ & Hprefix).
  - discriminate.
  - split; [exact Hp|]. apply Hprefix. discriminate.
Defined.

(** X8. The region [notify_slack] is called with matters to alarms only,
    and the subject to generic messages only: for a message of any other
    shape the outcome, payload or exception, is the same whatever the
    region, resp. the subject. *)
Theorem unused_arguments
    (float_repr : spec_float -> string) (json_loads : string -> py pyval)
    (env : environ) (message msg : pyval) (s : shape) :
  decode json_loads message = inr msg ->
  classify msg = inr s ->
  (s <> AlarmShape ->
   forall subject region1 region2 : pyval,
     notify_slack_payload float_repr json_loads env subject message region1 =
     notify_slack_payload float_repr json_loads env subject message region2)
  /\ (s <> GenericShape ->
      forall subject1 subject2 region : pyval,
        notify_slack_payload float_repr json_loads env subject1 message region =
        notify_slack_payload float_repr json_loads env subject2 message region).
Proof.
  intros Hdec Hshape. split; intros Hs; intros;
    rewrite !notify_slack_payload_branch, Hdec; cbn [bind Monad_either];
    rewrite Hshape; cbn [bind Monad_either];
    destruct s; try reflexivity; now elim Hs.
Qed.

(** The sample finding, called with two regions and with two subjects. *)
Lemma unused_arguments_witness :
  notify_slack_payload Sample.float_repr Sample.json_loads Sample.env PNone
    (PDict Sample.finding) (PStr "us-east-1") =
  notify_slack_payload Sample.float_repr Sample.json_loads Sample.env PNone
    (PDict Sample.finding) PNone
  /\ notify_slack_payload Sample.float_repr Sample.json_loads Sample.env PNone
       (PDict Sample.finding) (PStr "us-east-1") =
     notify_slack_payload Sample.float_repr Sample.json_loads Sample.env
       (PStr "Test") (PDict Sample.finding) (PStr "us-east-1").
Proof.
  destruct (unused_arguments Sample.float_repr Sample.json_loads Sample.env
              (PDict Sample.finding) (PDict Sample.finding) FindingShape
              eq_refl eq_refl) as [Hregion Hsubject].
  split.
  - apply Hregion. discriminate.
  - apply Hsubject. discriminate.
Defined.

(** X9. A text that decodes to a value that is not a string is handled as
    that value handed over directly would be. *)
Theorem decoded_text_as_value
    (float_repr : spec_float -> string) (json_loads : string -> py pyval)
    (env : environ) (subject region : pyval) (text : string) (v : pyval) :
  json_loads text = inr v ->
  (forall s, v <> PStr s) ->
  notify_slack_payload float_repr json_loads env subject (PStr text) region =
  notify_slack_payload float_repr json_loads env subject v region.
Proof.
  intros Hdec Hv. rewrite !notify_slack_payload_branch.
  unfold decode at 1, catch, Exception_either. rewrite Hdec.
  destruct v; try reflexivity. now elim (Hv s).
Qed.

Lemma decoded_text_as_value_witness :
  notify_slack_payload Sample.float_repr Sample.json_loads Sample.env PNone
    (PStr "42") (PStr "us-east-1") =
  notify_slack_payload Sample.float_repr Sample.json_loads Sample.env PNone
    (PInt 42) (PStr "us-east-1").
Proof.
  apply (decoded_text_as_value Sample.float_repr Sample.json_loads Sample.env
           PNone (PStr "us-east-1") "42" (PInt 42)).
  - reflexivity.
  - intros s. discriminate.
Defined.

(** X10. A finding that does not name its region raises
    [KeyError: 'region'], whatever region [notify_slack] was called with;
    one whose region is not a string raises [AttributeError]. *)
Theorem finding_needs_region
    (float_repr : spec_float -> string) (json_loads : string -> py pyval)
    (env : environ) (subject message region : pyval) (m : dict) :
  decode json_loads message = inr (PDict m) ->
  Dict.mem "AlarmName" m = false ->
  is_guardduty m = true ->
  (Dict.get "region" m = None ->
   notify_slack_payload float_repr json_loads env subject message region =
   inl (KeyError (PStr "region")))
  /\ (forall v : pyval,
         Dict.get "region" m = Some v ->
         (forall s, v <> PStr s) ->
         notify_slack_payload float_repr json_loads env subject message region =
         inl AttributeError).
Proof.
  intros Hdec Hname Hfinding.
  assert (Hrun : notify_slack_payload float_repr json_loads env subject
                   message region =
                 branch float_repr env FindingShape subject (PDict m) region).
  { rewrite notify_slack_payload_branch, Hdec. cbn [bind Monad_either].
    rewrite classify_dict. unfold shape_of_keys.
    now rewrite Hname, Hfinding. }
  rewrite Hrun. unfold branch, py_getitem. split.
  - intros Hregion. now rewrite Hregion.
  - intros v Hregion Hv. rewrite Hregion. cbn [bind ret Monad_either].
    destruct v; try reflexivity. now elim (Hv s).
Qed.

Lemma finding_needs_region_witness :
  notify_slack_payload Sample.float_repr Sample.json_loads Sample.env PNone
    (PDict [("detail-type", PStr "GuardDuty Finding");
            ("detail", PDict [("title", PStr "t")])])
    (PStr "us-east-1") = inl (KeyError (PStr "region"))
  /\ notify_slack_payload Sample.float_repr Sample.json_loads Sample.env PNone
       (PDict [("detail-type", PStr "GuardDuty Finding");
               ("region", PNone)])
       (PStr "us-east-1") = inl AttributeError.
Proof.
  split.
  - apply (proj1 (finding_needs_region Sample.float_repr Sample.json_loads
                    Sample.env PNone
                    (PDict [("detail-type", PStr "GuardDuty Finding");
                            ("detail", PDict [("title", PStr "t")])])
                    (PStr "us-east-1") _ eq_refl eq_refl eq_refl)).
    reflexivity.
  - apply (proj2 (finding_needs_region Sample.float_repr Sample.json_loads
                    Sample.env PNone
                    (PDict [("detail-type", PStr "GuardDuty Finding");
                            ("region", PNone)])
                    (PStr "us-east-1") _ eq_refl eq_refl eq_refl) PNone).
    + reflexivity.
    + intros s. discriminate.
Defined.

(** ** The generic attachment *)

(** X11. The generic attachment always has the fallback [A new message]
    and a title that is not empty: the subject when there is one, and
    [Message] for a subject that is missing or empty.  For a mapping it has
    as many fields as the mapping has items, none for the empty mapping;
    for any other message it has the message itself as its only field,
    without a title and not short. *)
Theorem default_notification_shape
    (float_repr : spec_float -> string) (subject message : pyval) :
  exists (title : pyval) (fields : list pyval),
    default_notification float_repr subject message =
    PDict [("fallback", PStr "A new message");
           ("title", title);
           ("mrkdwn_in", PList [PStr "value"]);
           ("fields", PList fields)]
    /\ py_truthy title = true
    /\ (py_truthy subject = true -> title = subject)
    /\ (py_truthy subject = false -> title = PStr "Message")
    /\ (forall d, message = PDict d -> List.length fields = List.length d)
    /\ ((forall d, message <> PDict d) ->
        fields = [PDict [("value", message); ("short", PBool false)]]).
Proof.
  unfold default_notification.
  eexists _, _. split; [reflexivity|].
  split; [|split; [|split; [|split]]].
  - destruct (py_truthy subject) eqn:Hs; [exact Hs|reflexivity].
  - intros Hs. now rewrite Hs.
  - intros Hs. now rewrite Hs.
  - intros d ->. rewrite fold_append_field. cbn [app]. apply List.length_map.
  - intros Hnot. destruct message; try reflexivity. now elim (Hnot d).
Qed.

(** ** The posted form *)

Module FormFacts.

Lemma quote_plus_char_form (c : ascii) :
  forallb form_char (list_ascii_of_string (quote_plus_char c)) = true.
Proof.
  destruct c as [[|] [|] [|] [|] [|] [|] [|] [|]]; vm_compute; reflexivity.
Qed.

Lemma concat_form (parts : list string) :
  Forall (fun part => forallb form_char (list_ascii_of_string part) = true)
         parts ->
  forallb form_char (list_ascii_of_string (String.concat EmptyString parts))
  = true.
Proof.
  induction 1 as [|part parts Hpart _ IH]; [reflexivity|].
  destruct parts as [|next parts]; [exact Hpart|].
  change (String.concat EmptyString (part :: next :: parts))
    with (part ++ EmptyString ++ String.concat EmptyString (next :: parts)).
  rewrite QuoteFacts.list_ascii_app, forallb_app, Hpart. exact IH.
Qed.

Lemma quote_plus_form (s : string) :
  forallb form_char (list_ascii_of_string (quote_plus s)) = true.
Proof.
  unfold quote_plus. apply concat_form.
  apply Forall_forall. intros part Hin.
  apply in_map_iff in Hin as (c & <- & _). apply quote_plus_char_form.
Qed.

End FormFacts.

(** X12. The data that is posted is [payload=] followed by the encoded
    JSON text, and the encoded text has letters, digits, [_.-~], plus and
    percent signs only: no ampersand, equals sign or space, whatever the
    payload holds, so that the form has the one field [payload]. *)
Theorem urlencode_payload_one_field (s : string) :
  urlencode_payload s = "payload=" ++ quote_plus s
  /\ (forall c, In c (list_ascii_of_string (quote_plus s)) ->
                form_char c = true)
  /\ has_char "&"%char (quote_plus s) = false
  /\ has_char "="%char (quote_plus s) = false
  /\ has_char " "%char (quote_plus s) = false.
Proof.
  pose proof (FormFacts.quote_plus_form s) as Hform.
  rewrite forallb_forall in Hform.
  assert (Hnot : forall c, form_char c = false ->
                           has_char c (quote_plus s) = false).
  { intros c Hc. unfold has_char.
    destruct (existsb (Ascii.eqb c) (list_ascii_of_string (quote_plus s)))
      eqn:Hex; [|reflexivity].
    apply existsb_exists in Hex as (x & Hin & Heq).
    apply Ascii.eqb_eq in Heq. subst x.
    rewrite (Hform c Hin) in Hc. discriminate Hc. }
  split; [reflexivity|]. split; [exact Hform|].
  repeat split; apply Hnot; reflexivity.
Qed.

(** ** Delivery *)

(** X13. When the payload cannot be assembled, [notify_slack] ends in the
    exception of the assembly and posts nothing: the outcome is the same
    whatever the KMS and the endpoint would answer.  When it is assembled,
    it is posted once, form-encoded, to the configured webhook when that
    starts with [http] (the KMS is not asked) and to its decryption
    otherwise ([None] when that fails).  The status code and headers of
    the answer are returned as a JSON text, just the same for an
    [HTTPError] as for a response: an error status does not raise. *)
Theorem notify_slack_outcome
    (float_repr : spec_float -> string) (json_loads : string -> py pyval)
    (kms_plaintext : string -> option string)
    (urlopen : pyval -> string -> reply)
    (env : environ) (subject message region : pyval) :
  (forall e : pyerr,
      notify_slack_payload float_repr json_loads env subject message region
      = inl e ->
      forall (kms_plaintext' : string -> option string)
             (urlopen' : pyval -> string -> reply),
        notify_slack float_repr json_loads kms_plaintext' urlopen' env
          subject message region = inl (Raised e))
  /\ (forall p : dict,
         notify_slack_payload float_repr json_loads env subject message region
         = inr p ->
         let url := slack_url_of kms_plaintext env in
         let data := urlencode_payload (json_dumps float_repr (PDict p)) in
         (forall code info,
             urlopen url data = Answered code info \/
             urlopen url data = HTTPError code info ->
             notify_slack float_repr json_loads kms_plaintext urlopen env
               subject message region =
             inr (response_text float_repr code info))
         /\ (urlopen url data = Failed ->
             notify_slack float_repr json_loads kms_plaintext urlopen env
               subject message region = inl DeliveryError))
  /\ (startswith (SLACK_WEBHOOK_URL env) "http" = true ->
      slack_url_of kms_plaintext env = PStr (SLACK_WEBHOOK_URL env))
  /\ (startswith (SLACK_WEBHOOK_URL env) "http" = false ->
      forall plaintext,
        kms_plaintext (SLACK_WEBHOOK_URL env) = Some plaintext ->
        slack_url_of kms_plaintext env = PStr plaintext)
  /\ (startswith (SLACK_WEBHOOK_URL env) "http" = false ->
      kms_plaintext (SLACK_WEBHOOK_URL env) = None ->
      slack_url_of kms_plaintext env = PNone).
Proof.
  split; [|split; [|split; [|split]]].
  - intros e Hrun kms_plaintext' urlopen'. unfold notify_slack.
    rewrite Hrun. reflexivity.
  - intros p Hrun. cbv zeta. split.
    + intros code info Hreply. unfold notify_slack. rewrite Hrun.
      cbn [lift bind Monad_either].
      destruct Hreply as [-> | ->]; reflexivity.
    + intros Hreply. unfold notify_slack. rewrite Hrun.
      cbn [lift bind Monad_either]. now rewrite Hreply.
  - intros Hhttp. unfold slack_url_of. now rewrite Hhttp.
  - intros Hhttp plaintext Hkms. unfold slack_url_of, decrypt.
    now rewrite Hhttp, Hkms.
  - intros Hhttp Hkms. unfold slack_url_of, decrypt.
    now rewrite Hhttp, Hkms.
Qed.

(** The text [42] with an endpoint that would answer 200, and
    [Hello world] with an endpoint that refuses with a 404. *)
Lemma notify_slack_outcome_witness :
  notify_slack Sample.float_repr Sample.json_loads (fun _ => None)
    (fun _ _ => Answered 200 EmptyString) Sample.env PNone (PStr "42")
    (PStr "us-east-1") = inl (Raised TypeError)
  /\ notify_slack Sample.float_repr Sample.json_loads (fun _ => None)
       (fun _ _ => HTTPError 404 EmptyString) Sample.env (PStr "Test")
       (PStr "Hello world") (PStr "us-east-1") =
     inr (response_text Sample.float_repr 404 EmptyString)
  /\ slack_url_of (fun _ => None) Sample.env =
     PStr "https://hooks.slack.com/services/T/B/X".
Proof.
  split; [|split].
  - apply (proj1 (notify_slack_outcome Sample.float_repr Sample.json_loads
                    (fun _ => None) (fun _ _ => Answered 200 EmptyString)
                    Sample.env PNone (PStr "42") (PStr "us-east-1"))
             TypeError eq_refl).
  - apply (proj1 (proj1 (proj2 (notify_slack_outcome Sample.float_repr
                                  Sample.json_loads (fun _ => None)
                                  (fun _ _ => HTTPError 404 EmptyString)
                                  Sample.env (PStr "Test")
                                  (PStr "Hello world") (PStr "us-east-1")))
                    _ eq_refl) 404%Z EmptyString).
    right. reflexivity.
  - apply (proj1 (proj2 (proj2 (notify_slack_outcome Sample.float_repr
                                  Sample.json_loads (fun _ => None)
                                  (fun _ _ => Answered 200 EmptyString)
                                  Sample.env PNone (PStr "42")
                                  (PStr "us-east-1"))))).
    reflexivity.
Defined.

(** ** The entry point *)

Module SplitFacts.

Lemma split_on_cons (sep : ascii) (s : string) :
  exists part parts, split_on sep s = part :: parts.
Proof.
  induction s as [|c s (part & parts & IH)]; cbn [split_on].
  - eauto.
  - rewrite IH. destruct (Ascii.eqb c sep); eauto.
Qed.

(** Joining the parts with the separator gives the string back. *)
Lemma join_split_on (sep : ascii) (s : string) :
  String.concat (String sep EmptyString) (split_on sep s) = s.
Proof.
  induction s as [|c s IH]; [reflexivity|].
  cbn [split_on].
  destruct (split_on_cons sep s) as (part & parts & Hs).
  rewrite Hs in IH |- *.
  destruct (Ascii.eqb_spec c sep) as [->|Hne].
  - change (String.concat (String sep EmptyString)
              (EmptyString :: part :: parts))
      with (EmptyString ++ String sep EmptyString
            ++ String.concat (String sep EmptyString) (part :: parts)).
    rewrite IH. reflexivity.
  - destruct parts as [|next parts].
    + cbn [String.concat] in IH |- *. now rewrite IH.
    + change (String.concat (String sep EmptyString)
                (String c part :: next :: parts))
        with (String c (part ++ String sep EmptyString
                        ++ String.concat (String sep EmptyString)
                             (next :: parts))).
      change (String.concat (String sep EmptyString) (part :: next :: parts))
        with (part ++ String sep EmptyString
              ++ String.concat (String sep EmptyString) (next :: parts))
        in IH.
      now rewrite IH.
Qed.

Lemma split_on_free (a : string) :
  colon_free a = true -> split_on ":"%char a = [a].
Proof.
  unfold colon_free, has_char.
  induction a as [|c a IH]; [reflexivity|].
  cbn [list_ascii_of_string existsb split_on].
  rewrite negb_orb. intros H. apply andb_true_iff in H as [Hc Ha].
  rewrite (IH Ha). rewrite Ascii.eqb_sym.
  apply negb_true_iff in Hc. now rewrite Hc.
Qed.

Lemma split_on_app (a rest : string) :
  colon_free a = true ->
  split_on ":"%char (a ++ String ":"%char rest) = a :: split_on ":"%char rest.
Proof.
  unfold colon_free, has_char.
  induction a as [|c a IH].
  - intros _. cbn [append split_on].
    destruct (split_on_cons ":"%char rest) as (part & parts & ->).
    reflexivity.
  - cbn [list_ascii_of_string existsb append split_on].
    rewrite negb_orb. intros H. apply andb_true_iff in H as [Hc Ha].
    rewrite (IH Ha). rewrite Ascii.eqb_sym.
    apply negb_true_iff in Hc. now rewrite Hc.
Qed.

(** Splitting the join of parts without the separator gives the parts. *)
Lemma split_on_join (part : string) (parts : list string) :
  Forall (fun x => colon_free x = true) (part :: parts) ->
  split_on ":"%char (String.concat ":" (part :: parts)) = part :: parts.
Proof.
  revert part. induction parts as [|next parts IH]; intros part Hfree.
  - apply split_on_free. now inversion Hfree.
  - inversion Hfree as [|? ? Hpart Hrest]; subst.
    change (String.concat ":" (part :: next :: parts))
      with (part ++ String ":"%char (String.concat ":" (next :: parts))).
    rewrite (split_on_app _ _ Hpart). now rewrite (IH next Hrest).
Qed.

End SplitFacts.

(** A field of the first record of an event. *)
Lemma sns_field_get (event : pyval) (sns : dict) (key : string) :
  event_sns event sns ->
  sns_field event key = lift (py_getitem (PDict sns) key).
Proof.
  intros (e & record & others & -> & Hrecords & Hsns).
  unfold sns_field, py_getitem at 1 2. rewrite Hrecords.
  cbn [lift bind Monad_either py_first ret]. now rewrite Hsns.
Qed.

(** X14. The region [lambda_handler] passes on is the fourth of the parts
    of the topic ARN between colons, so [us-east-1] for
    [arn:aws:sns:us-east-1:123456789012:alerts]; subject and message are
    those of the first record.  An ARN of fewer than four parts ends in
    [IndexError], and nothing is posted. *)
Theorem handler_region
    (float_repr : spec_float -> string) (json_loads : string -> py pyval)
    (kms_plaintext : string -> option string)
    (urlopen : pyval -> string -> reply) (env : environ)
    (event : pyval) (sns : dict) (subject message : pyval)
    (parts : list string) :
  event_sns event sns ->
  Dict.get "Subject" sns = Some subject ->
  Dict.get "Message" sns = Some message ->
  Dict.get "TopicArn" sns = Some (PStr (String.concat ":" parts)) ->
  Forall (fun part => colon_free part = true) parts ->
  (forall region,
      nth_error parts 3 = Some region ->
      handle float_repr json_loads kms_plaintext urlopen env event =
      notify_slack float_repr json_loads kms_plaintext urlopen env
        subject message (PStr region))
  /\ (List.length parts < 4 ->
      handle float_repr json_loads kms_plaintext urlopen env event =
      inl IndexError).
Proof.
  intros Hevent Hsubject Hmessage Harn Hfree.
  assert (Hsplit : parts <> [] ->
             split_on ":"%char (String.concat ":" parts) = parts).
  { destruct parts as [|part parts']; [congruence|].
    intros _. now apply SplitFacts.split_on_join. }
  unfold handle. rewrite !(sns_field_get event sns _ Hevent).
  unfold py_getitem. rewrite Hsubject, Hmessage, Harn.
  cbn [lift bind ret Monad_either py_split_colon].
  split.
  - intros region Hnth.
    rewrite Hsplit by (intros ->; discriminate Hnth).
    unfold py_nth. now rewrite Hnth.
  - intros Hlen. destruct parts as [|part parts']; [reflexivity|].
    rewrite Hsplit by discriminate. unfold py_nth.
    destruct (nth_error (part :: parts') 3) eqn:Hnth; [|reflexivity].
    assert (Hsome : nth_error (part :: parts') 3 <> None) by congruence.
    apply nth_error_Some in Hsome. lia.
Qed.

(** The event of a message published to the topic [alerts] in
    [us-east-1], and one with a topic name in place of the ARN. *)
Lemma handler_region_witness :
  handle Sample.float_repr Sample.json_loads (fun _ => None)
    (fun _ _ => Answered 200 EmptyString) Sample.env
    (sample_event "arn:aws:sns:us-east-1:123456789012:alerts"
       (PDict Sample.alarm)) =
  notify_slack Sample.float_repr Sample.json_loads (fun _ => None)
    (fun _ _ => Answered 200 EmptyString) Sample.env
    (PStr "Test") (PDict Sample.alarm) (PStr "us-east-1")
  /\ handle Sample.float_repr Sample.json_loads (fun _ => None)
       (fun _ _ => Answered 200 EmptyString) Sample.env
       (sample_event "alerts" (PDict Sample.alarm)) = inl IndexError.
Proof.
  split.
  - apply (proj1 (handler_region Sample.float_repr Sample.json_loads
                    (fun _ => None) (fun _ _ => Answered 200 EmptyString)
                    Sample.env
                    (sample_event "arn:aws:sns:us-east-1:123456789012:alerts"
                       (PDict Sample.alarm))
                    [("Subject", PStr "Test"); ("Message", PDict Sample.alarm);
                     ("TopicArn",
                      PStr "arn:aws:sns:us-east-1:123456789012:alerts")]
                    (PStr "Test") (PDict Sample.alarm)
                    ["arn"; "aws"; "sns"; "us-east-1"; "123456789012"; "alerts"]
                    (ex_intro _ _ (ex_intro _ _ (ex_intro _ _
                       (conj eq_refl (conj eq_refl eq_refl)))))
                    eq_refl eq_refl eq_refl
                    ltac:(repeat constructor))).
    reflexivity.
  - apply (proj2 (handler_region Sample.float_repr Sample.json_loads
                    (fun _ => None) (fun _ _ => Answered 200 EmptyString)
                    Sample.env
                    (sample_event "alerts" (PDict Sample.alarm))
                    [("Subject", PStr "Test"); ("Message", PDict Sample.alarm);
                     ("TopicArn", PStr "alerts")]
                    (PStr "Test") (PDict Sample.alarm)
                    ["alerts"]
                    (ex_intro _ _ (ex_intro _ _ (ex_intro _ _
                       (conj eq_refl (conj eq_refl eq_refl)))))
                    eq_refl eq_refl eq_refl
                    ltac:(repeat constructor))).
    cbn [List.length]. lia.
Defined.

(** X15. An event without [Records] ends in [KeyError: 'Records'], one
    with an empty list of records in [IndexError], one whose first record
    has no [Sns] in [KeyError: 'Sns'], and one whose topic ARN is not a
    string in [AttributeError]; in each case nothing is posted, and
    [lambda_handler] ends in that exception after the line of the event
    log, if that is on. *)
Theorem handler_malformed_event
    (float_repr : spec_float -> string) (json_loads : string -> py pyval)
    (kms_plaintext : string -> option string)
    (urlopen : pyval -> string -> reply) (env : environ)
    (log_events : option string) (context : string) (e : dict) :
  let outcome x :=
    handle float_repr json_loads kms_plaintext urlopen env (PDict e) = inl x
    /\ lambda_handler float_repr json_loads kms_plaintext urlopen env
         log_events (PDict e) context =
       (event_log float_repr log_events (PDict e), inl x) in
  (Dict.get "Records" e = None ->
   outcome (Raised (KeyError (PStr "Records"))))
  /\ (Dict.get "Records" e = Some (PList []) -> outcome IndexError)
  /\ (forall (record : dict) (others : list pyval),
         Dict.get "Records" e = Some (PList (PDict record :: others)) ->
         Dict.get "Sns" record = None ->
         outcome (Raised (KeyError (PStr "Sns"))))
  /\ (forall (sns : dict) (subject message arn : pyval),
         event_sns (PDict e) sns ->
         Dict.get "Subject" sns = Some subject ->
         Dict.get "Message" sns = Some message ->
         Dict.get "TopicArn" sns = Some arn ->
         (forall s, arn <> PStr s) ->
         outcome (Raised AttributeError)).
Proof.
  assert (Hout : forall x,
             handle float_repr json_loads kms_plaintext urlopen env (PDict e)
             = inl x ->
             lambda_handler float_repr json_loads kms_plaintext urlopen env
               log_events (PDict e) context =
             (event_log float_repr log_events (PDict e), inl x)).
  { intros x Hx. unfold lambda_handler. rewrite Hx. reflexivity. }
  cbv zeta. split; [|split; [|split]].
  - intros Hrecords.
    assert (Hx : handle float_repr json_loads kms_plaintext urlopen env
                   (PDict e) = inl (Raised (KeyError (PStr "Records")))).
    { unfold handle, sns_field, py_getitem. now rewrite Hrecords. }
    split; [exact Hx|exact (Hout _ Hx)].
  - intros Hrecords.
    assert (Hx : handle float_repr json_loads kms_plaintext urlopen env
                   (PDict e) = inl IndexError).
    { unfold handle, sns_field, py_getitem. now rewrite Hrecords. }
    split; [exact Hx|exact (Hout _ Hx)].
  - intros record others Hrecords Hsns.
    assert (Hx : handle float_repr json_loads kms_plaintext urlopen env
                   (PDict e) = inl (Raised (KeyError (PStr "Sns")))).
    { unfold handle, sns_field, py_getitem at 1. rewrite Hrecords.
      cbn [lift bind ret Monad_either py_first py_getitem].
      now rewrite Hsns. }
    split; [exact Hx|exact (Hout _ Hx)].
  - intros sns subject message arn Hevent Hsubject Hmessage Harn Hnot.
    assert (Hx : handle float_repr json_loads kms_plaintext urlopen env
                   (PDict e) = inl (Raised AttributeError)).
    { unfold handle. rewrite !(sns_field_get _ sns _ Hevent).
      unfold py_getitem. rewrite Hsubject, Hmessage, Harn.
      cbn [lift bind ret Monad_either].
      destruct arn; try reflexivity. now elim (Hnot s). }
    split; [exact Hx|exact (Hout _ Hx)].
Qed.

(** The empty event, with the event log on. *)
Lemma handler_malformed_event_witness :
  lambda_handler Sample.float_repr Sample.json_loads (fun _ => None)
    (fun _ _ => Answered 200 EmptyString) Sample.env (Some "True")
    (PDict []) "ctx" =
  ([Warning "Event logging enabled: `{}`"],
   inl (Raised (KeyError (PStr "Records")))).
Proof.
  apply (proj1 (handler_malformed_event Sample.float_repr Sample.json_loads
                  (fun _ => None) (fun _ _ => Answered 200 EmptyString)
                  Sample.env (Some "True") "ctx" [])).
  reflexivity.
Defined.

(** X16. [lambda_handler] returns the response of [notify_slack] as it
    is, whatever its status code, and logs an error, with the headers, the
    event and the context, exactly when the code is not 200; the event
    itself is logged first exactly when [LOG_EVENTS] is [True].  An
    exception of [notify_slack] is not caught. *)
Theorem handler_returns_response
    (float_repr : spec_float -> string) (json_loads : string -> py pyval)
    (kms_plaintext : string -> option string)
    (urlopen : pyval -> string -> reply) (env : environ)
    (log_events : option string) (event : pyval) (context : string) :
  (forall (code : Z) (info : string),
      handle float_repr json_loads kms_plaintext urlopen env event =
      inr (response_text float_repr code info) ->
      json_loads (response_text float_repr code info) =
      inr (PDict [("code", PInt code); ("info", PStr info)]) ->
      lambda_handler float_repr json_loads kms_plaintext urlopen env
        log_events event context =
      ((event_log float_repr log_events event
        ++ (if (code =? 200)%Z then []
            else [status_line float_repr (PStr info) event context]))%list,
       inr (response_text float_repr code info)))
  /\ (forall x : exc,
         handle float_repr json_loads kms_plaintext urlopen env event = inl x ->
         lambda_handler float_repr json_loads kms_plaintext urlopen env
           log_events event context =
         (event_log float_repr log_events event, inl x))
  /\ (log_events = Some "True" ->
      event_log float_repr log_events event =
      [Warning ("Event logging enabled: `" ++ json_dumps float_repr event
                ++ "`")])
  /\ (log_events <> Some "True" ->
      event_log float_repr log_events event = []).
Proof.
  split; [|split; [|split]].
  - intros code info Hrun Hloads. unfold lambda_handler, status_check.
    rewrite Hrun, Hloads.
    cbn [lift bind ret Monad_either py_getitem Dict.get String.eqb
         Ascii.eqb Bool.eqb py_ne_200].
    destruct (code =? 200)%Z; cbn [negb].
    + rewrite app_nil_r. reflexivity.
    + reflexivity.
  - intros x Hx. unfold lambda_handler. rewrite Hx. reflexivity.
  - intros ->. reflexivity.
  - intros Hlog. unfold event_log.
    destruct log_events as [value|]; [|reflexivity].
    destruct (String.eqb_spec value "True") as [->|_]; [|reflexivity].
    now elim Hlog.
Qed.

(** The text [Hello world] published to a topic, with an endpoint that
    refuses with a 404: the response is returned and an error is logged. *)
Lemma handler_returns_response_witness :
  lambda_handler Sample.float_repr sample_loads (fun _ => None)
    (fun _ _ => HTTPError 404 EmptyString) Sample.env None
    (sample_event "arn:aws:sns:us-east-1:123456789012:alerts"
       (PStr "Hello world")) "ctx" =
  ([status_line Sample.float_repr (PStr EmptyString)
      (sample_event "arn:aws:sns:us-east-1:123456789012:alerts"
         (PStr "Hello world")) "ctx"],
   inr (response_text Sample.float_repr 404 EmptyString)).
Proof.
  apply (proj1 (handler_returns_response Sample.float_repr sample_loads
                  (fun _ => None) (fun _ _ => HTTPError 404 EmptyString)
                  Sample.env None
                  (sample_event "arn:aws:sns:us-east-1:123456789012:alerts"
                     (PStr "Hello world")) "ctx") 404%Z EmptyString).
  - vm_compute. reflexivity.
  - vm_compute. reflexivity.
Defined.

(** ** Shapes of mappings and of other values *)

(** X17. On a mapping the tests of the chain never raise, and exactly one
    shape comes out: alarm exactly when it has [AlarmName]; finding
    exactly when it has not and its [detail-type] is the string
    [GuardDuty Finding]; pre-formatted exactly when it is neither and has
    [attachments] or [text]; generic exactly when it has none of these. *)
Theorem classify_mapping (m : dict) :
  exists s : shape,
    classify (PDict m) = inr s
    /\ (s = AlarmShape <-> Dict.mem "AlarmName" m = true)
    /\ (s = FindingShape <->
        Dict.mem "AlarmName" m = false /\ is_guardduty m = true)
    /\ (s = PreformattedShape <->
        Dict.mem "AlarmName" m = false /\ is_guardduty m = false
        /\ (Dict.mem "attachments" m = true \/ Dict.mem "text" m = true))
    /\ (s = GenericShape <->
        Dict.mem "AlarmName" m = false /\ is_guardduty m = false
        /\ Dict.mem "attachments" m = false /\ Dict.mem "text" m = false).
Proof.
  exists (shape_of_keys m). split; [apply classify_dict|].
  unfold shape_of_keys.
  destruct (Dict.mem "AlarmName" m), (is_guardduty m),
    (Dict.mem "attachments" m), (Dict.mem "text" m); cbn [orb];
    repeat split; try discriminate; try reflexivity; intuition discriminate.
Qed.

(** X18. A message that is not a mapping after decoding (a text that does
    not decode, or one that decodes to a list, a string or a scalar) is
    never posted as an alarm, a finding or a pre-formatted message: when
    [notify_slack] assembles a payload for it, it is the generic one, with
    the message as its only field. *)
Theorem non_mapping_is_generic_or_raises
    (float_repr : spec_float -> string) (json_loads : string -> py pyval)
    (env : environ) (subject message region msg : pyval) (p : dict) :
  decode json_loads message = inr msg ->
  (forall d, msg <> PDict d) ->
  notify_slack_payload float_repr json_loads env subject message region = inr p ->
  classify msg = inr GenericShape
  /\ p = [("channel", PStr (SLACK_CHANNEL env));
          ("username", PStr (SLACK_USERNAME env));
          ("icon_emoji", PStr (SLACK_EMOJI env));
          ("attachments",
           PList [PDict [("fallback", PStr "A new message");
                         ("title", if py_truthy subject then subject
                                   else PStr "Message");
                         ("mrkdwn_in", PList [PStr "value"]);
                         ("fields",
                          PList [PDict [("value", msg);
                                        ("short", PBool false)]])]]);
          ("text", PStr (prefix_of env ++ "AWS notification"))].
Proof.
  intros Hdec Hnot Hrun.
  rewrite notify_slack_payload_branch, Hdec in Hrun.
  cbn [bind Monad_either] in Hrun.
  destruct (classify msg) as [e|s]; [discriminate Hrun|].
  cbn [bind Monad_either] in Hrun.
  destruct s; unfold branch in Hrun.
  - exfalso.
    unfold cloudwatch_notification in Hrun.
    destruct (py_startswith region "us-gov-") as [e|gov];
      [discriminate Hrun|].
    cbn [bind Monad_either] in Hrun.
    destruct msg; try discriminate Hrun. now elim (Hnot d).
  - exfalso.
    destruct msg; try discriminate Hrun. now elim (Hnot d).
  - exfalso.
    destruct msg; try discriminate Hrun. now elim (Hnot d).
  - split; [reflexivity|].
    cbn [ret Monad_either] in Hrun. injection Hrun as <-.
    unfold default_notification.
    destruct msg; try reflexivity. now elim (Hnot d).
Qed.

(** The text [Hello world]. *)
Lemma non_mapping_is_generic_or_raises_witness :
  classify (PStr "Hello world") = inr GenericShape
  /\ exists p,
      notify_slack_payload Sample.float_repr Sample.json_loads Sample.env
        (PStr "Test") (PStr "Hello world") (PStr "us-east-1") = inr p
      /\ Dict.get "text" p = Some (PStr "[prod] AWS notification").
Proof.
  destruct (non_mapping_is_generic_or_raises Sample.float_repr
              Sample.json_loads Sample.env (PStr "Test") (PStr "Hello world")
              (PStr "us-east-1") (PStr "Hello world") _ eq_refl
              ltac:(intros d; discriminate) eq_refl) as [Hshape Hp].
  split; [exact Hshape|].
  eexists. split; [reflexivity|reflexivity].
Defined.

(** ** Runs of the properties without a precondition *)


(** The sample finding and its attachment. *)
Lemma guardduty_finding_returns_iff_witness :
  guardduty_finding Sample.float_repr (PDict Sample.finding)
    (PStr "us-east-1") =
  inr (finding_attachment Sample.float_repr
         (sample_parts (PFloat Sample.f8_5)) "us-east-1" "High" "danger").
Proof.
  apply (proj2 (guardduty_finding_returns_iff Sample.float_repr
                  (PDict Sample.finding) (PStr "us-east-1") _)).
  exists Sample.finding, (sample_parts (PFloat Sample.f8_5)),
    "us-east-1", "High", "danger".
  split; [reflexivity|]. split; [reflexivity|].
  split; [apply sample_finding_message|].
  split; [vm_compute; reflexivity|].
  split; reflexivity.
Defined.

(** The empty mapping without a subject, and a list with the subject
    [Test]. *)
Lemma default_notification_shape_witness :
  default_notification Sample.float_repr PNone (PDict []) =
  PDict [("fallback", PStr "A new message");
         ("title", PStr "Message");
         ("mrkdwn_in", PList [PStr "value"]);
         ("fields", PList [])]
  /\ default_notification Sample.float_repr (PStr "Test") (PList [PInt 1]) =
     PDict [("fallback", PStr "A new message");
            ("title", PStr "Test");
            ("mrkdwn_in", PList [PStr "value"]);
            ("fields", PList [PDict [("value", PList [PInt 1]);
                                     ("short", PBool false)]])].
Proof.
  split.
  - destruct (default_notification_shape Sample.float_repr PNone (PDict []))
      as (title & fields & Hrun & _ & _ & Htitle & Hlen & _).
    rewrite Hrun, (Htitle eq_refl).
    specialize (Hlen [] eq_refl). destruct fields; [reflexivity|].
    discriminate Hlen.
  - destruct (default_notification_shape Sample.float_repr (PStr "Test")
                (PList [PInt 1]))
      as (title & fields & Hrun & _ & Htitle & _ & _ & Hfields).
    rewrite Hrun, (Htitle eq_refl), Hfields; [reflexivity|].
    intros d. discriminate.
Defined.

(** A JSON text with a space, an ampersand and an equals sign. *)
Lemma urlencode_payload_one_field_witness :
  urlencode_payload "a b&c=d" = "payload=a+b%26c%3Dd"
  /\ has_char "&"%char (quote_plus "a b&c=d") = false.
Proof.
  split.
  - rewrite (proj1 (urlencode_payload_one_field "a b&c=d")). reflexivity.
  - apply (proj1 (proj2 (proj2 (urlencode_payload_one_field "a b&c=d")))).
Defined.

(** A mapping with [AlarmName] and [text] is an alarm. *)
Lemma classify_mapping_witness :
  classify (PDict [("text", PStr "hi"); ("AlarmName", PStr "cpu-high")])
  = inr AlarmShape.
Proof.
  destruct (classify_mapping
              [("text", PStr "hi"); ("AlarmName", PStr "cpu-high")])
    as (s & Hshape & Halarm & _).
  rewrite Hshape. f_equal. apply Halarm. reflexivity.
Defined.
